(** * A shallow embedding of the chatbot client of [app.py]

    The development follows the layout of the Python module: the string
    primitives the code relies on ([Py]), the configuration constants,
    [TokenManager], [APICache], [HuggingFaceClient] and [ChatSession].
    Stateful code (the SQLite cache, the clock, the HTTP endpoint and the
    Streamlit session) is written in a small state monad over an explicit
    [world]. *)

From Stdlib Require Import ZArith NArith Ascii String DecimalString.
From stdpp Require Import base list gmap.

Set Warnings "-register-all".
Local Open Scope Z_scope.

(** ** Python strings *)

(** A Python [str] is a sequence of Unicode code points; [len] counts code
    points.  String literals of the source are written with [Py.py], which
    decodes the UTF-8 bytes of the Rocq literal. *)
Abbreviation str := (list N).

Module Py.

(** Decoder state: [need] continuation bytes are still expected, [acc] holds
    the bits read so far. *)
Fixpoint decode_from (need : nat) (acc : N) (bs : list N) : str :=
  match bs with
  | [] => []
  | b :: bs' =>
      match need with
      | O =>
          if (b <? 128)%N then b :: decode_from 0 0%N bs'
          else if (b <? 224)%N then decode_from 1 (b - 192)%N bs'
          else if (b <? 240)%N then decode_from 2 (b - 224)%N bs'
          else decode_from 3 (b - 240)%N bs'
      | S O => (acc * 64 + (b - 128))%N :: decode_from 0 0%N bs'
      | S n => decode_from n (acc * 64 + (b - 128))%N bs'
      end
  end.

Definition py (s : string) : str :=
  decode_from 0 0%N (map N_of_ascii (list_ascii_of_string s)).

(** [str(n)] for an integer. *)
Definition str_of_Z (n : Z) : str :=
  py (NilZero.string_of_int (Z.to_int n)).

(** [c.isspace()]: the code points CPython classifies as whitespace. *)
Definition is_space (c : N) : bool :=
  ((9 <=? c) && (c <=? 13) || (28 <=? c) && (c <=? 32)
   || (c =? 133) || (c =? 160) || (c =? 5760)
   || (8192 <=? c) && (c <=? 8202)
   || (c =? 8232) || (c =? 8233) || (c =? 8239) || (c =? 8287)
   || (c =? 12288))%N.

Fixpoint lstrip (s : str) : str :=
  match s with
  | [] => []
  | c :: s' => if is_space c then lstrip s' else s
  end.

Definition rstrip (s : str) : str := rev (lstrip (rev s)).

(** [s.strip()] *)
Definition strip (s : str) : str := rstrip (lstrip s).

(** [s.split()]: maximal runs of non-whitespace, in order.  [cur] is the word
    being read, reversed. *)
Fixpoint split_from (cur : str) (s : str) : list str :=
  match s with
  | [] => match cur with [] => [] | _ => [rev cur] end
  | c :: s' =>
      if is_space c then
        match cur with
        | [] => split_from [] s'
        | _ => rev cur :: split_from [] s'
        end
      else split_from (c :: cur) s'
  end.

Definition split (s : str) : list str := split_from [] s.

(** [sep.join(ws)] *)
Fixpoint join (sep : str) (ws : list str) : str :=
  match ws with
  | [] => []
  | [w] => w
  | w :: ws' => w ++ sep ++ join sep ws'
  end.

(** [l[-n:]] for [n > 0]: the last [n] elements (all of [l] when it is
    shorter). *)
Definition last_n {A} (n : nat) (l : list A) : list A :=
  drop (length l - n) l.

(** [s.encode()] succeeds: no code point of [s] is a surrogate.  On any
    other [str] it raises [UnicodeEncodeError]. *)
Definition encodable (s : str) : bool :=
  forallb (fun c => negb ((55296 <=? c) && (c <=? 57343))%N) s.

(** [range(lo, hi)] *)
Definition range (lo hi : Z) : list Z :=
  map (fun i => lo + Z.of_nat i) (seq 0 (Z.to_nat (hi - lo))).

Definition SPACE : str := py " ".

End Py.

(** ** Configuration *)

Definition MAX_HISTORY_TOKENS : Z := 800.
Definition MAX_INPUT_LENGTH : nat := 512.
Definition CACHE_EXPIRY : Z := 3600.
Definition MAX_RETRIES : Z := 3.
Definition MAX_CONVERSATION_TURNS : nat := 10.

(** ** TokenManager *)

Module TokenManager.

Definition estimate_tokens (text : str) : Z :=
  Z.of_nat (length text) / 4.

(** [sum(estimate_tokens(msg) for msg in msgs)] *)
Definition sum_tokens (msgs : list str) : Z :=
  fold_left Z.add (map estimate_tokens msgs) 0.

(** The [while] loop of [truncate_history]: pops the oldest pair while the
    running total is over the budget and both lists are non-empty. *)
Fixpoint drop_oldest (max_tokens total_tokens : Z)
    (inputs_copy responses_copy : list str) {struct inputs_copy}
    : list str * list str :=
  if (total_tokens >? max_tokens) then
    match inputs_copy, responses_copy with
    | oldest_input :: inputs', oldest_response :: responses' =>
        drop_oldest max_tokens
          (total_tokens
           - (estimate_tokens oldest_input + estimate_tokens oldest_response))
          inputs' responses'
    | _, _ => (inputs_copy, responses_copy)
    end
  else (inputs_copy, responses_copy).

Definition truncate_history (past_inputs past_responses : list str)
    (max_tokens : Z) : list str * list str :=
  let inputs_copy := past_inputs in
  let responses_copy := past_responses in
  if (MAX_CONVERSATION_TURNS <? length inputs_copy)%nat then
    let start_idx := (length inputs_copy - MAX_CONVERSATION_TURNS)%nat in
    (drop start_idx inputs_copy, drop start_idx responses_copy)
  else
    let total_tokens := sum_tokens (inputs_copy ++ responses_copy) in
    if (total_tokens <=? max_tokens) then (inputs_copy, responses_copy)
    else drop_oldest max_tokens total_tokens inputs_copy responses_copy.

Definition truncate_text (text : str) (max_length : nat) : str :=
  if (length text <=? max_length)%nat then text else take max_length text.

End TokenManager.

(** ** The outside world *)

(** A decoded JSON body, as [response.json()] returns it.  A [JDict] lists
    its items in iteration order. *)
Inductive json :=
| JNull
| JBool (b : bool)
| JInt (n : Z)
| JFloat (literal : str)
| JStr (s : str)
| JList (items : list json)
| JDict (fields : list (str * json)).

(** [fields[key]], [None] when [key not in fields]. *)
Fixpoint dict_get (key : str) (fields : list (str * json)) : option json :=
  match fields with
  | [] => None
  | (k, v) :: fields' =>
      if bool_decide (k = key) then Some v else dict_get key fields'
  end.

(** What the program takes from its libraries: the MD5 hex digest of
    [hashlib] (of a text that can be encoded; [compute_hash] of the source
    raises on the others, see [APICache]), the text an f-string puts for a JSON value that is not a
    string, and whether the decoding error of [response.json()] is a
    [RequestException] (it is since requests 2.27), which decides the
    handler that catches it. *)
Class Env := {
  compute_hash : str -> str;
  py_repr : json -> str;
  json_error_is_request_exception : bool
}.

(** The cache table: [query_hash -> (response, timestamp)].  On a
    [ReadOnly] database the [SELECT] runs and the [INSERT] raises;
    [Unavailable] is a database every statement on which raises. *)
Inductive storage :=
| Available (rows : gmap str (str * Z))
| ReadOnly (rows : gmap str (str * Z))
| Unavailable.

(** What one [requests.post] does. *)
Inductive reply :=
| Response (status_code : Z) (body : option json)
| Timeout
| ConnectionFailure
| Unexpected (description : str).

Inductive event :=
| CacheLookup (query : str)
| CacheStore (query response : str)
| Post (inputs : str)
| Sleep (seconds : Z).

(** [endpoint n] is how long the [n]-th request of the run takes and what
    comes back; [requests] counts the requests sent so far.  [events] is the
    log of what the program did to the cache, the endpoint and the clock,
    oldest first; the properties read it, the program does not. *)
Record world := World {
  cache : storage;
  now : Z;
  endpoint : nat -> Z * reply;
  requests : nat;
  events : list event;
  user_inputs : list str;
  bot_responses : list str
}.

Definition M (A : Type) : Type := world -> A * world.

Definition ret {A} (a : A) : M A := fun w => (a, w).

Definition bind {A B} (c : M A) (k : A -> M B) : M B :=
  fun w => let (a, w') := c w in k a w'.

Notation "'let*' x := c 'in' k" := (bind c (fun x => k))
  (at level 10, x name, c at level 100, k at level 200).

Definition record (e : event) : M unit := fun w =>
  (tt, World (cache w) (now w) (endpoint w) (requests w) (events w ++ [e])
         (user_inputs w) (bot_responses w)).

Definition elapse (seconds : Z) : M unit := fun w =>
  (tt, World (cache w) (now w + seconds) (endpoint w) (requests w) (events w)
         (user_inputs w) (bot_responses w)).

Definition set_cache (c : storage) : M unit := fun w =>
  (tt, World c (now w) (endpoint w) (requests w) (events w)
         (user_inputs w) (bot_responses w)).

(** [int(time.time())] *)
Definition time_time : M Z := fun w => (now w, w).

(** [time.sleep(seconds)] *)
Definition time_sleep (seconds : Z) : M unit :=
  let* _ := record (Sleep seconds) in elapse seconds.

(** [requests.post(..., json=payload, ...)] with [payload["inputs"] = inputs] *)
Definition requests_post (inputs : str) : M reply := fun w =>
  let (latency, r) := endpoint w (requests w) in
  (r, World (cache w) (now w + latency) (endpoint w) (S (requests w))
        (events w ++ [Post inputs]) (user_inputs w) (bot_responses w)).

(** ** APICache *)

Module APICache.
Section WithEnv.
Context {E : Env}.

(** [compute_hash(query)] raises when [query.encode()] does; the [except]
    then makes the lookup a miss. *)
Definition get_cached_response (query : str) : M (option str) :=
  let* _ := record (CacheLookup query) in
  if Py.encodable query then
    let query_hash := compute_hash query in
    let* current_time := time_time in
    fun w =>
      match cache w with
      | Available rows | ReadOnly rows =>
          match rows !! query_hash with
          | Some (response, timestamp) =>
              if current_time - timestamp <? CACHE_EXPIRY
              then (Some response, w) else (None, w)
          | None => (None, w)
          end
      | Unavailable => (None, w)
      end
  else ret None.

(** Nothing is stored when [compute_hash(query)] raises, when the database
    refuses the [INSERT], or when binding [response] to it raises (a text
    that cannot be encoded): the [except] swallows the error. *)
Definition cache_response (query response : str) : M unit :=
  let* _ := record (CacheStore query response) in
  if Py.encodable query then
    let query_hash := compute_hash query in
    let* current_time := time_time in
    fun w =>
      match cache w with
      | Available rows =>
          if Py.encodable response then
            set_cache
              (Available (<[query_hash := (response, current_time)]> rows)) w
          else (tt, w)
      | ReadOnly _ | Unavailable => (tt, w)
      end
  else ret tt.

End WithEnv.
End APICache.

(** ** HuggingFaceClient *)

Module HuggingFaceClient.

Definition MSG_BAD_REQUEST : str :=
  Py.py "⚠️ Erro na requisição: formato inválido. Tente uma mensagem mais curta.".
Definition MSG_INADEQUATE : str :=
  Py.py "Desculpe, não consegui gerar uma resposta adequada. Poderia reformular?".
Definition MSG_SERVER_ERROR : str :=
  Py.py "⚠️ Erro no servidor da API. Tente novamente mais tarde.".
Definition MSG_HTTP_ERROR (status_code : Z) : str :=
  Py.py "⚠️ Erro na requisição: " ++ Py.str_of_Z status_code.
Definition MSG_TIMEOUT : str :=
  Py.py "⚠️ Tempo esgotado ao aguardar resposta da API.".
Definition MSG_CONNECTION : str :=
  Py.py "⚠️ Erro de conexão com a API.".
Definition MSG_INVALID_BODY : str :=
  Py.py "⚠️ Resposta inválida da API.".
Definition MSG_UNKNOWN (description : str) : str :=
  Py.py "⚠️ Ocorreu um erro: " ++ description.
Definition MSG_NO_RESPONSE : str :=
  Py.py "⚠️ Não foi possível obter uma resposta após várias tentativas.".
Definition MSG_UNEXPECTED_FORMAT : str :=
  Py.py "⚠️ Formato de resposta inesperado da API.".

Definition GENERATED_TEXT : str := Py.py "generated_text".
Definition ERROR : str := Py.py "error".

(** How the body of a [try] block ends: at a [return], with an exception,
    or by reaching its last line. *)
Inductive tried :=
| Returned (result : str)
| Raised
| FellThrough.

(** [or_else block1 block2]: the statements [block2] run when [block1]
    neither returned nor raised. *)
Definition or_else (first : option tried) (rest : tried) : tried :=
  match first with
  | Some t => t
  | None => rest
  end.

(** [value.strip()]: an [AttributeError] unless [value] is a [str]. *)
Definition strip_of (value : json) : tried :=
  match value with
  | JStr s => Returned (Py.strip s)
  | _ => Raised
  end.

(** The [for key, value in fields.items()] scans of [_extract_response]. *)
Fixpoint first_long_text (fields : list (str * json)) : option tried :=
  match fields with
  | [] => None
  | (key, JStr value) :: fields' =>
      if (5 <? length value)%nat then Some (Returned (Py.strip value))
      else first_long_text fields'
  | _ :: fields' => first_long_text fields'
  end.

Section WithEnv.
Context {E : Env}.

(** The text an f-string puts for [value]. *)
Definition format (value : json) : str :=
  match value with
  | JStr s => s
  | _ => py_repr value
  end.

Definition MSG_API_ERROR (error : json) : str :=
  Py.py "⚠️ Erro da API: " ++ format error.

Definition extract_try (data : json) : tried :=
  or_else
    match data with
    | JDict fields =>
        match dict_get GENERATED_TEXT fields with
        | Some value => Some (strip_of value)
        | None =>
            match dict_get ERROR fields with
            | Some error => Some (Returned (MSG_API_ERROR error))
            | None => None
            end
        end
    | _ => None
    end
  (or_else
    match data with
    | JList (JDict fields :: _) =>
        match dict_get GENERATED_TEXT fields with
        | Some value => Some (strip_of value)
        | None => None
        end
    | _ => None
    end
  (or_else
    match data with
    | JDict fields => first_long_text fields
    | _ => None
    end
  (or_else
    match data with
    | JList (JDict fields :: _) => first_long_text fields
    | _ => None
    end
  FellThrough))).

Definition _extract_response (data : json) : str :=
  match extract_try data with
  | Returned result => result
  | Raised | FellThrough => MSG_UNEXPECTED_FORMAT
  end.

(** How one turn of the [for attempt] loop ends: [continue] (or the end of
    the body) with the current [prompt], or [return]. *)
Inductive flow :=
| Continue (prompt : str)
| Return (result : str).

(** The [if attempt < MAX_RETRIES: time.sleep(2 ** attempt) else: return msg]
    of the handlers. *)
Definition backoff_or (attempt : Z) (prompt msg : str) : M flow :=
  if attempt <? MAX_RETRIES then
    let wait_time := 2 ^ attempt in
    let* _ := time_sleep wait_time in ret (Continue prompt)
  else ret (Return msg).

(** One turn of the loop.  [inputs] is [payload["inputs"]], set before the
    loop; [prompt] is the local variable. *)
Definition attempt_once (inputs : str) (attempt : Z) (prompt : str) : M flow :=
  let* response := requests_post inputs in
  match response with
  | Response status_code body =>
      if status_code =? 400 then
        if attempt <? MAX_RETRIES then
          let words := Py.split prompt in
          let prompt :=
            if (100 <? length words)%nat
            then Py.join Py.SPACE (Py.last_n 100 words) else prompt in
          ret (Continue prompt)
        else ret (Return MSG_BAD_REQUEST)
      else if (400 <=? status_code) && (status_code <? 600) then
        (* raise_for_status() raised HTTPError *)
        if status_code =? 429 then
          let wait_time := 2 ^ attempt in
          let* _ := time_sleep wait_time in ret (Continue prompt)
        else if status_code >=? 500 then
          backoff_or attempt prompt MSG_SERVER_ERROR
        else ret (Return (MSG_HTTP_ERROR status_code))
      else
        match body with
        | Some data =>
            let result := _extract_response data in
            let store result :=
              let* _ := APICache.cache_response prompt result in
              ret (Return result) in
            if bool_decide (result = []) || (length result <? 2)%nat then
              if attempt <? MAX_RETRIES then
                let* _ := time_sleep (2 ^ attempt) in ret (Continue prompt)
              else store MSG_INADEQUATE
            else store result
        | None =>
            (* response.json() raised *)
            if json_error_is_request_exception then ret (Return MSG_CONNECTION)
            else backoff_or attempt prompt MSG_INVALID_BODY
        end
  | Timeout => backoff_or attempt prompt MSG_TIMEOUT
  | ConnectionFailure => ret (Return MSG_CONNECTION)
  | Unexpected description => ret (Return (MSG_UNKNOWN description))
  end.

Fixpoint retry_loop (inputs : str) (attempts : list Z) (prompt : str)
    : M str :=
  match attempts with
  | [] => ret MSG_NO_RESPONSE
  | attempt :: attempts' =>
      let* f := attempt_once inputs attempt prompt in
      match f with
      | Continue prompt => retry_loop inputs attempts' prompt
      | Return result => ret result
      end
  end.

Definition query (prompt : str) : M str :=
  let prompt := TokenManager.truncate_text prompt MAX_INPUT_LENGTH in
  let* cached_response := APICache.get_cached_response prompt in
  match cached_response with
  | Some (c :: cs) => ret (c :: cs)
  | _ =>
      let inputs := prompt in
      retry_loop inputs (Py.range 1 (MAX_RETRIES + 1)) prompt
  end.

End WithEnv.
End HuggingFaceClient.

(** ** ChatSession *)

Module ChatSession.

Definition MSG_INVALID_INPUT : str :=
  Py.py "⚠️ Por favor, digite uma mensagem válida.".

Definition append_user_input (user_input : str) : M unit := fun w =>
  (tt, World (cache w) (now w) (endpoint w) (requests w) (events w)
         (user_inputs w ++ [user_input]) (bot_responses w)).

Definition append_bot_response (reply : str) : M unit := fun w =>
  (tt, World (cache w) (now w) (endpoint w) (requests w) (events w)
         (user_inputs w) (bot_responses w ++ [reply])).

Definition session_state : M (list str * list str) := fun w =>
  ((user_inputs w, bot_responses w), w).

(** Lines 382-396 of [add_message]: the text handed to [query]. *)
Definition user_query (truncated_inputs truncated_responses : list str)
    (user_input : str) : str :=
  let '(truncated_inputs, truncated_responses) :=
    if (3 <=? length truncated_inputs)%nat
    then (Py.last_n 3 truncated_inputs, Py.last_n 3 truncated_responses)
    else (truncated_inputs, truncated_responses) in
  match last truncated_inputs, last truncated_responses with
  | Some last_input, Some last_response =>
      let context := last_input ++ Py.SPACE ++ last_response in
      let context :=
        if (200 <? length context)%nat then Py.last_n 200 context
        else context in
      context ++ Py.SPACE ++ user_input
  | _, _ => user_input
  end.

(** One entry of [get_history]: [{"role": role, "content": content}]. *)
Record message := Message { role : str; content : str }.

Definition USER : str := Py.py "user".
Definition ASSISTANT : str := Py.py "assistant".

(** The [for i, user_msg in enumerate(...)] loop of [get_history], from
    index [i] on. *)
Fixpoint history_from (i : nat) (inputs responses : list str)
    : list message :=
  match inputs with
  | [] => []
  | user_msg :: inputs' =>
      Message USER user_msg
      :: match responses !! i with
         | Some response => [Message ASSISTANT response]
         | None => []
         end
      ++ history_from (S i) inputs' responses
  end.

Definition get_history : M (list message) := fun w =>
  (history_from 0 (user_inputs w) (bot_responses w), w).

Section WithEnv.
Context {E : Env}.

Definition add_message (user_input : str) : M str :=
  if bool_decide (user_input = [])
     || (length (Py.strip user_input) =? 0)%nat
  then ret MSG_INVALID_INPUT
  else
    let user_input :=
      if (MAX_INPUT_LENGTH <? length user_input)%nat
      then take MAX_INPUT_LENGTH user_input else user_input in
    let* _ := append_user_input user_input in
    let* st := session_state in
    let '(inputs, responses) := st in
    let '(truncated_inputs, truncated_responses) :=
      TokenManager.truncate_history (removelast inputs) responses
        MAX_HISTORY_TOKENS in
    let user_query :=
      user_query truncated_inputs truncated_responses user_input in
    (* the except of lines 401-403 has nothing to catch: [query] returns *)
    let* reply := HuggingFaceClient.query user_query in
    let* _ := append_bot_response reply in
    ret reply.

End WithEnv.
End ChatSession.

(** ** Vocabulary of the properties *)

(** Whether [query] would answer [prompt] from the cache: the row is there,
    fresh, and its text passes [if cached_response:]. *)
Definition cache_hit `{Env} (prompt : str) (w : world) : bool :=
  match (APICache.get_cached_response prompt w).1 with
  | Some (_ :: _) => true
  | _ => false
  end.

(** The shapes [_extract_response] recognises before its fallback scan. *)
Definition recognized (data : json) : bool :=
  match data with
  | JDict fields =>
      match dict_get HuggingFaceClient.GENERATED_TEXT fields,
            dict_get HuggingFaceClient.ERROR fields with
      | None, None => false
      | _, _ => true
      end
  | JList (JDict fields :: _) =>
      match dict_get HuggingFaceClient.GENERATED_TEXT fields with
      | None => false
      | Some _ => true
      end
  | _ => false
  end.

(** The top-level fields of the record, or of the first element of a
    sequence of records. *)
Definition top_level_fields (data : json) : list (str * json) :=
  match data with
  | JDict fields => fields
  | JList (JDict fields :: _) => fields
  | _ => []
  end.

(** A field holding a string longer than 5 characters. *)
Definition holds_long_text (field : str * json) : bool :=
  match field.2 with
  | JStr value => (5 <? length value)%nat
  | _ => false
  end.

(** A reply that parses but whose extracted text is empty or under 2
    characters. *)
Definition soft_failure `{Env} (r : reply) : bool :=
  match r with
  | Response status_code (Some data) =>
      negb ((400 <=? status_code) && (status_code <? 600))
      && (length (HuggingFaceClient._extract_response data) <? 2)%nat
  | _ => false
  end.

(** The text an event carries to the cache or to the endpoint. *)
Definition event_text (e : event) : str :=
  match e with
  | CacheLookup query => query
  | CacheStore query _ => query
  | Post inputs => inputs
  | Sleep _ => []
  end.

(** The trailing 100 words, as line 248 builds them. *)
Definition salvaged (prompt : str) : str :=
  Py.join Py.SPACE (Py.last_n 100 (Py.split prompt)).

(** The world after a request that took [latency] seconds. *)
Definition posted (inputs : str) (latency : Z) (w : world) : world :=
  World (cache w) (now w + latency) (endpoint w) (S (requests w))
    (events w ++ [Post inputs]) (user_inputs w) (bot_responses w).

(** The world after a [time.sleep]. *)
Definition slept (seconds : Z) (w : world) : world :=
  World (cache w) (now w + seconds) (endpoint w) (requests w)
    (events w ++ [Sleep seconds]) (user_inputs w) (bot_responses w).

(** The world after a cache lookup. *)
Definition looked_up (query : str) (w : world) : world :=
  World (cache w) (now w) (endpoint w) (requests w)
    (events w ++ [CacheLookup query]) (user_inputs w) (bot_responses w).

(** The test of line 260. *)
Definition too_short (result : str) : bool :=
  bool_decide (result = []) || (length result <? 2)%nat.

(** How many requests a stretch of the log holds. *)
Fixpoint posts (evs : list event) : nat :=
  match evs with
  | [] => 0
  | Post _ :: evs' => S (posts evs')
  | _ :: evs' => posts evs'
  end.

(** How many seconds of [time.sleep] a stretch of the log holds. *)
Fixpoint sleep_total (evs : list event) : Z :=
  match evs with
  | [] => 0
  | Sleep seconds :: evs' => seconds + sleep_total evs'
  | _ :: evs' => sleep_total evs'
  end.

Definition is_store (e : event) : bool :=
  match e with
  | CacheStore _ _ => true
  | _ => false
  end.

(** The first and the last character, if any, are not whitespace. *)
Definition trimmed (s : str) : Prop :=
  match head s with
  | Some c => Py.is_space c = false
  | None => True
  end
  /\ match last s with
     | Some c => Py.is_space c = false
     | None => True
     end.

(** An endpoint that answers every request with the same reply, after one
    second. *)
Definition always (r : reply) : nat -> Z * reply := fun _ => (1, r).

(** The seconds the loop sleeps when it backs off after every attempt. *)
Fixpoint backoff_total (attempts : list Z) : Z :=
  match attempts with
  | [] => 0
  | attempt :: attempts' => 2 ^ attempt + backoff_total attempts'
  end.

(** The replies whose handler backs off and tries again while attempts
    remain, with the message it returns on the last attempt: a 5xx status,
    a timeout, and a body that is not JSON when its error reaches the
    [json.JSONDecodeError] handler. *)
Definition transient `{Env} (r : reply) : option str :=
  match r with
  | Response status_code body =>
      if (500 <=? status_code) && (status_code <? 600)
      then Some HuggingFaceClient.MSG_SERVER_ERROR
      else if (400 <=? status_code) && (status_code <? 600) then None
      else
        match body with
        | None =>
            if json_error_is_request_exception then None
            else Some HuggingFaceClient.MSG_INVALID_BODY
        | Some _ => None
        end
  | Timeout => Some HuggingFaceClient.MSG_TIMEOUT
  | ConnectionFailure | Unexpected _ => None
  end.

(** The replies whose handler returns at once, with its message: a 4xx
    status other than 400 and 429, a connection failure (and a body that
    is not JSON when its error is a [RequestException]), and any other
    exception. *)
Definition permanent `{Env} (r : reply) : option str :=
  match r with
  | Response status_code body =>
      if (400 <? status_code) && (status_code <? 500)
         && negb (status_code =? 429)
      then Some (HuggingFaceClient.MSG_HTTP_ERROR status_code)
      else if (400 <=? status_code) && (status_code <? 600) then None
      else
        match body with
        | None =>
            if json_error_is_request_exception
            then Some HuggingFaceClient.MSG_CONNECTION else None
        | Some _ => None
        end
  | ConnectionFailure => Some HuggingFaceClient.MSG_CONNECTION
  | Unexpected description =>
      Some (HuggingFaceClient.MSG_UNKNOWN description)
  | Timeout => None
  end.

(** The replies after which the loop sleeps and tries again when attempts
    remain: a 429 status, the transient classes, and a soft failure. *)
Definition backs_off `{Env} (r : reply) : bool :=
  match r with
  | Response status_code _ => status_code =? 429
  | _ => false
  end
  || match transient r with
     | Some _ => true
     | None => false
     end
  || soft_failure r.

(** A stand-in for the libraries, to run the definitions on examples. *)
Definition toy_env : Env :=
  {| compute_hash := fun data => rev data;
     py_repr := fun _ => Py.py "?";
     json_error_is_request_exception := true |}.

(** The table after [cache_response(query, response)] at time [t]: the row
    is written when both texts can be encoded and the database takes the
    [INSERT]; otherwise the table is as before. *)
Definition table_with `{Env} (query response : str) (t : Z) (c : storage)
    : storage :=
  match c with
  | Available rows =>
      if Py.encodable query && Py.encodable response
      then Available (<[compute_hash query := (response, t)]> rows)
      else c
  | ReadOnly _ | Unavailable => c
  end.

(** The world after a cache store. *)
Definition stored `{Env} (query response : str) (w : world) : world :=
  World (table_with query response (now w) (cache w))
    (now w) (endpoint w) (requests w)
    (events w ++ [CacheStore query response])
    (user_inputs w) (bot_responses w).

(** An endpoint that answers 429 to every request. *)
Definition always_429 : nat -> Z * reply := fun _ => (1, Response 429 None).

(** The event carries at most [MAX_INPUT_LENGTH] characters. *)
Definition within_limit (e : event) : Prop :=
  (length (event_text e) <= MAX_INPUT_LENGTH)%nat.

(** Room taken by words when each is followed by one separator. *)
Fixpoint spaced_size (ws : list str) : nat :=
  match ws with
  | [] => 0
  | w :: ws' => S (length w + spaced_size ws')
  end.

(** A prompt of 101 words in 205 characters. *)
Definition long_prompt : str :=
  Py.py "first" ++ concat (repeat (Py.py " w") 100).

(** An endpoint that rejects the first request with 400 and answers the
    following ones. *)
Definition rejects_first : nat -> Z * reply := fun n =>
  match n with
  | O => (1, Response 400 None)
  | S _ =>
      (1, Response 200
            (Some (JList [JDict [(HuggingFaceClient.GENERATED_TEXT,
                                  JStr (Py.py "Hello there"))]])))
  end.

(** An endpoint whose every answer is a blank generated text. *)
Definition always_blank : nat -> Z * reply := fun _ =>
  (1, Response 200
        (Some (JDict [(HuggingFaceClient.GENERATED_TEXT, JStr (Py.py " "))]))).

(** An endpoint that cannot be reached. *)
Definition offline : nat -> Z * reply := fun _ => (0, ConnectionFailure).

(** A fresh run: an empty cache table, the clock at [t], no history. *)
Definition fresh (t : Z) (endpoint : nat -> Z * reply) : world :=
  World (Available ∅) t endpoint 0 [] [] [].

(** * Properties *)

(** ** Decoding of the literals and the string primitives, on examples *)

Example py_warning_sign : Py.py "⚠️ ok" = [9888; 65039; 32; 111; 107]%N.
Proof. reflexivity. Qed.

Example py_latin : Py.py "não" = [110; 227; 111]%N.
Proof. reflexivity. Qed.

Example split_words :
  Py.split (Py.py "  a bc   d ") = [Py.py "a"; Py.py "bc"; Py.py "d"].
Proof. reflexivity. Qed.

Example strip_both_sides : Py.strip (Py.py "  a b  ") = Py.py "a b".
Proof. reflexivity. Qed.

Example str_of_status : Py.str_of_Z 404 = Py.py "404".
Proof. reflexivity. Qed.

Example range_attempts : Py.range 1 (MAX_RETRIES + 1) = [1; 2; 3].
Proof. reflexivity. Qed.

(** ** TokenManager *)

Section TokenManagerFacts.
Import TokenManager.

Lemma fold_add_acc (zs : list Z) (a : Z) :
  fold_left Z.add zs a = a + fold_left Z.add zs 0.
Proof.
  revert a. induction zs as [|z zs IH]; intros a; simpl.
  - lia.
  - rewrite (IH (a + z)), (IH (0 + z)). lia.
Qed.

Lemma sum_tokens_cons (m : str) (ms : list str) :
  sum_tokens (m :: ms) = estimate_tokens m + sum_tokens ms.
Proof. unfold sum_tokens. simpl. apply fold_add_acc. Qed.

Lemma sum_tokens_app (ms ns : list str) :
  sum_tokens (ms ++ ns) = sum_tokens ms + sum_tokens ns.
Proof.
  induction ms as [|m ms IH].
  - reflexivity.
  - simpl. rewrite !sum_tokens_cons, IH. lia.
Qed.

(** The running total of the loop is the cost of what is left. *)
Lemma sum_tokens_pop (i r : str) (inputs responses : list str) :
  sum_tokens ((i :: inputs) ++ r :: responses)
  - (estimate_tokens i + estimate_tokens r)
  = sum_tokens (inputs ++ responses).
Proof. rewrite !sum_tokens_app, !sum_tokens_cons. lia. Qed.

Lemma drop_oldest_nil_l (max_tokens total : Z) (responses : list str) :
  drop_oldest max_tokens total [] responses = ([], responses).
Proof. simpl. destruct (total >? max_tokens); reflexivity. Qed.

Lemma drop_oldest_nil_r (max_tokens total : Z) (inputs : list str) :
  drop_oldest max_tokens total inputs [] = (inputs, []).
Proof.
  destruct inputs; simpl; destruct (total >? max_tokens); reflexivity.
Qed.

Lemma drop_oldest_within (max_tokens total : Z) (inputs responses : list str) :
  total <= max_tokens ->
  drop_oldest max_tokens total inputs responses = (inputs, responses).
Proof.
  intros H. destruct inputs; simpl;
    destruct (Z.gtb_spec total max_tokens); try reflexivity; lia.
Qed.

(** What the loop returns: the same number [k] of oldest entries is gone
    from both lists, and the loop stopped for one of its three reasons. *)
Lemma drop_oldest_spec (max_tokens : Z) (inputs : list str) :
  forall (responses : list str) (total : Z),
    total = sum_tokens (inputs ++ responses) ->
    exists k : nat,
      drop_oldest max_tokens total inputs responses
      = (drop k inputs, drop k responses)
      /\ (sum_tokens (drop k inputs ++ drop k responses) <= max_tokens
          \/ drop k inputs = [] \/ drop k responses = []).
Proof.
  induction inputs as [|i inputs IH]; intros responses total Htotal.
  - exists 0%nat. rewrite drop_oldest_nil_l. auto.
  - simpl drop_oldest. destruct (Z.gtb_spec total max_tokens) as [Hover|Hok].
    + destruct responses as [|r responses].
      * exists 0%nat. auto.
      * destruct (IH responses
                    (total - (estimate_tokens i + estimate_tokens r)))
          as (k & Hk & Hstop).
        { subst total. apply sum_tokens_pop. }
        exists (S k). auto.
    + exists 0%nat. split; [reflexivity|]. left. rewrite !drop_0. lia.
Qed.

Lemma truncate_history_no_cap (inputs responses : list str) (max_tokens : Z) :
  (length inputs <= MAX_CONVERSATION_TURNS)%nat ->
  truncate_history inputs responses max_tokens
  = if sum_tokens (inputs ++ responses) <=? max_tokens
    then (inputs, responses)
    else drop_oldest max_tokens (sum_tokens (inputs ++ responses))
           inputs responses.
Proof.
  intros Hlen. unfold truncate_history.
  destruct (Nat.ltb_spec MAX_CONVERSATION_TURNS (length inputs)); [lia|].
  reflexivity.
Qed.

Lemma truncate_history_stable (inputs responses : list str) (max_tokens : Z) :
  (length inputs <= MAX_CONVERSATION_TURNS)%nat ->
  sum_tokens (inputs ++ responses) <= max_tokens
  \/ inputs = [] \/ responses = [] ->
  truncate_history inputs responses max_tokens = (inputs, responses).
Proof.
  intros Hlen Hstop. rewrite truncate_history_no_cap by assumption.
  destruct (Z.leb_spec (sum_tokens (inputs ++ responses)) max_tokens);
    [reflexivity|].
  destruct Hstop as [H'|[->| ->]]; [lia| |].
  - apply drop_oldest_nil_l.
  - apply drop_oldest_nil_r.
Qed.

(** Without the turn cap, truncating twice is truncating once. *)
Lemma truncate_history_idempotent_no_cap
    (inputs responses : list str) (max_tokens : Z) :
  (length inputs <= MAX_CONVERSATION_TURNS)%nat ->
  truncate_history
    (truncate_history inputs responses max_tokens).1
    (truncate_history inputs responses max_tokens).2 max_tokens
  = truncate_history inputs responses max_tokens.
Proof.
  intros Hlen. rewrite (truncate_history_no_cap inputs) by assumption.
  destruct (Z.leb_spec (sum_tokens (inputs ++ responses)) max_tokens).
  - simpl. apply truncate_history_stable; auto.
  - destruct (drop_oldest_spec max_tokens inputs responses _ eq_refl)
      as (k & -> & Hstop).
    simpl. apply truncate_history_stable; [|assumption].
    rewrite length_drop. lia.
Qed.

(** The result is the input without its [k] oldest pairs, for some [k]. *)
Lemma truncate_history_drops (inputs responses : list str) (max_tokens : Z) :
  exists k : nat,
    truncate_history inputs responses max_tokens
    = (drop k inputs, drop k responses)
    /\ (length (drop k inputs) <= MAX_CONVERSATION_TURNS)%nat.
Proof.
  destruct (Nat.ltb_spec MAX_CONVERSATION_TURNS (length inputs)) as [Hcap|Hno].
  - exists (length inputs - MAX_CONVERSATION_TURNS)%nat. split.
    + unfold truncate_history.
      destruct (Nat.ltb_spec MAX_CONVERSATION_TURNS (length inputs)); [|lia].
      reflexivity.
    + rewrite length_drop. lia.
  - rewrite truncate_history_no_cap by assumption.
    destruct (Z.leb_spec (sum_tokens (inputs ++ responses)) max_tokens).
    + exists 0%nat. split; [reflexivity|]. rewrite drop_0. lia.
    + destruct (drop_oldest_spec max_tokens inputs responses _ eq_refl)
        as (k & -> & _).
      exists k. split; [reflexivity|]. rewrite length_drop. lia.
Qed.

(** C6: for every history, [truncate_history] returns the input without
    its [k] oldest pairs for some [k] (a contiguous suffix, in the same
    order, of both lists and of the list of pairs), and the result has at
    most [MAX_CONVERSATION_TURNS] pairs. *)
Theorem truncate_history_suffix_bounded
    (inputs responses : list str) (max_tokens : Z) :
  exists k : nat,
    truncate_history inputs responses max_tokens
    = (drop k inputs, drop k responses)
    /\ zip (truncate_history inputs responses max_tokens).1
           (truncate_history inputs responses max_tokens).2
       = drop k (zip inputs responses)
    /\ (length (truncate_history inputs responses max_tokens).1
        <= MAX_CONVERSATION_TURNS)%nat
    /\ (length (zip (truncate_history inputs responses max_tokens).1
                    (truncate_history inputs responses max_tokens).2)
        <= MAX_CONVERSATION_TURNS)%nat.
Proof.
  destruct (truncate_history_drops inputs responses max_tokens)
    as (k & -> & Hlen).
  exists k. simpl. split; [reflexivity|]. split; [|split].
  - symmetry. apply zip_with_drop.
  - assumption.
  - rewrite length_zip_with. lia.
Qed.

(** C2, as amended: for a history whose total cost exceeds [max_tokens],
    applying [truncate_history] to its own output returns that output,
    provided the turn cap does not fire (at most [MAX_CONVERSATION_TURNS]
    inputs) or what the first application keeps is within [max_tokens]. *)
Theorem truncate_history_idempotent_over_budget
    (inputs responses : list str) (max_tokens : Z) :
  sum_tokens (inputs ++ responses) > max_tokens ->
  (length inputs <= MAX_CONVERSATION_TURNS)%nat
  \/ sum_tokens ((truncate_history inputs responses max_tokens).1
                 ++ (truncate_history inputs responses max_tokens).2)
     <= max_tokens ->
  truncate_history
    (truncate_history inputs responses max_tokens).1
    (truncate_history inputs responses max_tokens).2 max_tokens
  = truncate_history inputs responses max_tokens.
Proof.
  intros _ [Hlen|Hfits].
  - apply truncate_history_idempotent_no_cap, Hlen.
  - destruct (truncate_history_drops inputs responses max_tokens)
      as (k & Hk & Hlen).
    rewrite Hk in *. simpl in *. apply truncate_history_stable; auto.
Qed.

End TokenManagerFacts.

(** C2 fails when the turn cap fires: eleven pairs of 100 tokens each are
    cut to ten pairs (1000 tokens) and returned at once; a second
    application finds ten pairs, skips the cap, and cuts to the 800-token
    budget. *)
Lemma truncate_history_twice_differs :
  let inputs := repeat (repeat 97%N 400) 11 in
  let responses := repeat (Py.py "ok") 11 in
  length inputs = length responses
  /\ TokenManager.sum_tokens (inputs ++ responses) > MAX_HISTORY_TOKENS
  /\ TokenManager.truncate_history
       (TokenManager.truncate_history inputs responses MAX_HISTORY_TOKENS).1
       (TokenManager.truncate_history inputs responses MAX_HISTORY_TOKENS).2
       MAX_HISTORY_TOKENS
     <> TokenManager.truncate_history inputs responses MAX_HISTORY_TOKENS.
Proof.
  split; [reflexivity|]. split; [reflexivity|].
  intros Heq. apply (f_equal (fun out => length out.1)) in Heq.
  vm_compute in Heq. discriminate Heq.
Qed.

Lemma truncate_history_idempotent_over_budget_witness :
  let inputs := [repeat 97%N 400; repeat 98%N 400; Py.py "hi"] in
  let responses := [Py.py "ok"; Py.py "ok"; Py.py "ok"] in
  TokenManager.sum_tokens (inputs ++ responses) > 150
  /\ ((length inputs <= MAX_CONVERSATION_TURNS)%nat
      \/ TokenManager.sum_tokens
           ((TokenManager.truncate_history inputs responses 150).1
            ++ (TokenManager.truncate_history inputs responses 150).2)
         <= 150)
  /\ TokenManager.truncate_history inputs responses 150
     = ([repeat 98%N 400; Py.py "hi"], [Py.py "ok"; Py.py "ok"])
  /\ TokenManager.truncate_history
       (TokenManager.truncate_history inputs responses 150).1
       (TokenManager.truncate_history inputs responses 150).2 150
     = TokenManager.truncate_history inputs responses 150.
Proof.
  intros inputs responses.
  assert (Hover : TokenManager.sum_tokens (inputs ++ responses) > 150)
    by reflexivity.
  assert (Hcase : (length inputs <= MAX_CONVERSATION_TURNS)%nat
      \/ TokenManager.sum_tokens
           ((TokenManager.truncate_history inputs responses 150).1
            ++ (TokenManager.truncate_history inputs responses 150).2)
         <= 150)
    by (left; vm_compute; lia).
  split; [exact Hover|]. split; [exact Hcase|]. split; [reflexivity|].
  exact (truncate_history_idempotent_over_budget inputs responses 150
           Hover Hcase).
Defined.

(** The same when the cap fires and what it keeps fits the budget. *)
Example truncate_history_cap_within_budget :
  let inputs := repeat 97%N 400 :: repeat (Py.py "hi") 10 in
  let responses := repeat (Py.py "ok") 11 in
  TokenManager.sum_tokens (inputs ++ responses) > 50
  /\ TokenManager.truncate_history inputs responses 50
     = (repeat (Py.py "hi") 10, repeat (Py.py "ok") 10)
  /\ TokenManager.truncate_history
       (repeat (Py.py "hi") 10) (repeat (Py.py "ok") 10) 50
     = (repeat (Py.py "hi") 10, repeat (Py.py "ok") 10).
Proof. repeat split. Qed.

(** ** APICache *)

Section APICacheFacts.
Context {E : Env}.
Import APICache.

(** A lookup only reads: the table is what it was. *)
Lemma get_cached_response_cache (query : str) (w : world) :
  cache (get_cached_response query w).2 = cache w.
Proof.
  destruct w as [c t ep n evs ui br].
  unfold get_cached_response, bind, record, time_time, ret. simpl.
  destruct (Py.encodable query); [|reflexivity].
  destruct c as [rows|rows|]; simpl; try reflexivity;
    (destruct (rows !! compute_hash query) as [[response timestamp]|];
     [|reflexivity]);
    destruct (t - timestamp <? CACHE_EXPIRY); reflexivity.
Qed.

(** What a lookup returns when the row is in the table. *)
Lemma get_cached_response_row (query response : str) (timestamp : Z)
    (rows : gmap str (str * Z)) (w : world) :
  Py.encodable query = true ->
  cache w = Available rows ->
  rows !! compute_hash query = Some (response, timestamp) ->
  (get_cached_response query w).1
  = if now w - timestamp <? CACHE_EXPIRY then Some response else None.
Proof.
  destruct w as [c t ep n evs ui br]. simpl. intros Henc -> Hrow.
  unfold get_cached_response, bind, record, time_time. simpl.
  rewrite Henc. simpl. rewrite Hrow.
  destruct (t - timestamp <? CACHE_EXPIRY); reflexivity.
Qed.

(** A text that cannot be encoded is never found. *)
Lemma get_cached_response_unencodable (query : str) (w : world) :
  Py.encodable query = false ->
  (get_cached_response query w).1 = None.
Proof.
  intros Henc. unfold get_cached_response, bind, record, ret. simpl.
  rewrite Henc. reflexivity.
Qed.

(** What a store leaves in the table, and on the clock. *)
Lemma cache_response_cache (query response : str)
    (rows : gmap str (str * Z)) (w : world) :
  Py.encodable query = true ->
  Py.encodable response = true ->
  cache w = Available rows ->
  cache (cache_response query response w).2
  = Available (<[compute_hash query := (response, now w)]> rows)
  /\ now (cache_response query response w).2 = now w.
Proof.
  destruct w as [c t ep n evs ui br]. simpl. intros Hq Hr ->.
  unfold cache_response, bind, record, time_time, set_cache. simpl.
  rewrite Hq. simpl. rewrite Hr. auto.
Qed.

(** C4, as amended: when the text and the response can be encoded and the
    database takes the statements, [cache_response] followed by
    [get_cached_response] with the same text, less than [CACHE_EXPIRY]
    seconds later, returns the stored response. *)
Theorem cache_round_trip (query response : str) (elapsed : Z)
    (rows : gmap str (str * Z)) (w : world) :
  Py.encodable query = true ->
  Py.encodable response = true ->
  cache w = Available rows ->
  elapsed < CACHE_EXPIRY ->
  ((let* _ := cache_response query response in
    let* _ := elapse elapsed in
    get_cached_response query) w).1 = Some response.
Proof.
  intros Hq Hr Hc Hfresh. unfold bind at 1 2.
  destruct (cache_response_cache query response rows w Hq Hr Hc)
    as [Hc' Hnow].
  destruct (cache_response query response w) as [[] w1]. simpl in Hc', Hnow.
  destruct (elapse elapsed w1) as [[] w2] eqn:Hw2.
  assert (cache w2 = cache w1 /\ now w2 = now w1 + elapsed) as [Hc2 Hn2].
  { unfold elapse in Hw2. injection Hw2 as <-. simpl. auto. }
  rewrite (get_cached_response_row query response (now w)
             (<[compute_hash query := (response, now w)]> rows)).
  - destruct (Z.ltb_spec (now w2 - now w) CACHE_EXPIRY); [reflexivity|lia].
  - exact Hq.
  - congruence.
  - apply lookup_insert_eq.
Qed.

(** C5: once [now - timestamp >= CACHE_EXPIRY], the lookup of a stored text
    returns [None]; the lookup leaves the table as it is, the row still in
    it. *)
Theorem cache_expired_row_kept (query response : str) (timestamp : Z)
    (rows : gmap str (str * Z)) (w : world) :
  cache w = Available rows ->
  rows !! compute_hash query = Some (response, timestamp) ->
  now w - timestamp >= CACHE_EXPIRY ->
  (get_cached_response query w).1 = None
  /\ cache (get_cached_response query w).2 = Available rows
  /\ exists rows' : gmap str (str * Z),
       cache (get_cached_response query w).2 = Available rows'
       /\ rows' !! compute_hash query = Some (response, timestamp).
Proof.
  intros Hc Hrow Hold. rewrite get_cached_response_cache.
  split; [|split; [assumption|exists rows; auto]].
  destruct (Py.encodable query) eqn:Henc.
  - rewrite (get_cached_response_row query response timestamp rows w
               Henc Hc Hrow).
    destruct (Z.ltb_spec (now w - timestamp) CACHE_EXPIRY); [lia|reflexivity].
  - apply get_cached_response_unencodable, Henc.
Qed.

(** The comparison is the only test: a stored row is returned exactly while
    [now - timestamp < CACHE_EXPIRY]. *)
Lemma cache_row_valid_iff (query response : str) (timestamp : Z)
    (rows : gmap str (str * Z)) (w : world) :
  Py.encodable query = true ->
  cache w = Available rows ->
  rows !! compute_hash query = Some (response, timestamp) ->
  (get_cached_response query w).1 = Some response
  <-> now w - timestamp < CACHE_EXPIRY.
Proof.
  intros Henc Hc Hrow.
  rewrite (get_cached_response_row query response timestamp rows w
             Henc Hc Hrow).
  destruct (Z.ltb_spec (now w - timestamp) CACHE_EXPIRY); split;
    intros; try reflexivity; try lia; discriminate.
Qed.

(** On a database that raises, a store is lost and a lookup misses. *)
Lemma cache_unavailable (query response : str) (w : world) :
  cache w = Unavailable ->
  (get_cached_response query w).1 = None
  /\ cache (cache_response query response w).2 = Unavailable.
Proof.
  destruct w as [c t ep n evs ui br]. simpl. intros ->.
  unfold get_cached_response, cache_response, bind, record, time_time, ret.
  simpl. destruct (Py.encodable query); split; reflexivity.
Qed.

(** On a database that cannot be written, a store is lost. *)
Lemma cache_read_only (query response : str) (rows : gmap str (str * Z))
    (w : world) :
  cache w = ReadOnly rows ->
  cache (cache_response query response w).2 = ReadOnly rows.
Proof.
  destruct w as [c t ep n evs ui br]. simpl. intros ->.
  unfold cache_response, bind, record, time_time, ret.
  simpl. destruct (Py.encodable query); reflexivity.
Qed.

End APICacheFacts.

(** C4 fails as stated: a text or a response holding a lone surrogate
    makes the store raise, the error is swallowed, and the lookup that
    follows finds nothing; the same on a database that raises. *)
Lemma cache_round_trip_lost :
  0 < CACHE_EXPIRY
  /\ ((let* _ := @APICache.cache_response toy_env [55296%N] (Py.py "hello") in
       let* _ := elapse 0 in
       @APICache.get_cached_response toy_env [55296%N])
        (fresh 1000 offline)).1 = None
  /\ ((let* _ := @APICache.cache_response toy_env (Py.py "hi") [56448%N] in
       let* _ := elapse 0 in
       @APICache.get_cached_response toy_env (Py.py "hi"))
        (fresh 1000 offline)).1 = None
  /\ ((let* _ := @APICache.cache_response toy_env (Py.py "hi") (Py.py "hello") in
       let* _ := elapse 0 in
       @APICache.get_cached_response toy_env (Py.py "hi"))
        (World Unavailable 1000 offline 0 [] [] [])).1 = None.
Proof. repeat split; vm_compute; reflexivity. Qed.

Lemma cache_round_trip_witness :
  Py.encodable (Py.py "hi") = true
  /\ Py.encodable (Py.py "hello") = true
  /\ cache (fresh 1000 offline) = Available ∅
  /\ 3599 < CACHE_EXPIRY
  /\ ((let* _ := @APICache.cache_response toy_env (Py.py "hi") (Py.py "hello") in
       let* _ := elapse 3599 in
       @APICache.get_cached_response toy_env (Py.py "hi"))
        (fresh 1000 offline)).1
     = Some (Py.py "hello").
Proof.
  split; [reflexivity|]. split; [reflexivity|].
  split; [reflexivity|]. split; [reflexivity|].
  exact (@cache_round_trip toy_env (Py.py "hi") (Py.py "hello") 3599 ∅
           (fresh 1000 offline) eq_refl eq_refl eq_refl eq_refl).
Defined.

Lemma cache_expired_row_kept_witness :
  let rows : gmap str (str * Z) :=
    {[ @compute_hash toy_env (Py.py "hi") := (Py.py "hello", 1000) ]} in
  let w := World (Available rows) 4600 offline 0 [] [] [] in
  cache w = Available rows
  /\ rows !! @compute_hash toy_env (Py.py "hi") = Some (Py.py "hello", 1000)
  /\ now w - 1000 >= CACHE_EXPIRY
  /\ (@APICache.get_cached_response toy_env (Py.py "hi") w).1 = None.
Proof.
  intros rows w.
  assert (Hc : cache w = Available rows) by reflexivity.
  assert (Hrow : rows !! @compute_hash toy_env (Py.py "hi")
                 = Some (Py.py "hello", 1000)) by reflexivity.
  assert (Hold : now w - 1000 >= CACHE_EXPIRY) by (vm_compute; discriminate).
  split; [exact Hc|]. split; [exact Hrow|]. split; [exact Hold|].
  exact (proj1 (@cache_expired_row_kept toy_env (Py.py "hi") (Py.py "hello")
                  1000 rows w Hc Hrow Hold)).
Defined.

(** ** HuggingFaceClient._extract_response *)

Section ExtractFacts.
Context {E : Env}.
Import HuggingFaceClient.

Lemma first_long_text_none (fields : list (str * json)) :
  forallb (fun field => negb (holds_long_text field)) fields = true ->
  first_long_text fields = None.
Proof.
  induction fields as [|[key value] fields IH]; [reflexivity|].
  simpl. intros [Hshort Hrest]%andb_prop. specialize (IH Hrest).
  destruct value; try exact IH.
  unfold holds_long_text in Hshort. simpl in Hshort.
  destruct (5 <? length s)%nat; [discriminate|exact IH].
Qed.

(** With no recognised shape and no long text at top level, the [try]
    block reaches its last line. *)
Lemma extract_try_falls_through (data : json) :
  recognized data = false ->
  forallb (fun field => negb (holds_long_text field)) (top_level_fields data)
  = true ->
  extract_try data = FellThrough.
Proof.
  intros Hshape Hscan. unfold extract_try.
  destruct data as [| | | | |items|fields]; try reflexivity.
  - destruct items as [|first rest]; [reflexivity|].
    destruct first; try reflexivity.
    simpl in Hshape, Hscan.
    destruct (dict_get GENERATED_TEXT fields); [discriminate|].
    simpl. rewrite (first_long_text_none _ Hscan). reflexivity.
  - simpl in Hshape, Hscan.
    destruct (dict_get GENERATED_TEXT fields); [discriminate|].
    destruct (dict_get ERROR fields); [discriminate|].
    simpl. rewrite (first_long_text_none _ Hscan). reflexivity.
Qed.

(** A scan that finds something returns it. *)
Lemma first_long_text_returns (fields : list (str * json)) (t : tried) :
  first_long_text fields = Some t -> exists result, t = Returned result.
Proof.
  induction fields as [|[key value] fields IH]; [discriminate|].
  simpl. destruct value; auto.
  destruct (5 <? length s)%nat; [|exact IH].
  intros [= <-]. eauto.
Qed.

(** The [try] block raises exactly when the generated text it found is not
    a [str]. *)
Lemma extract_try_raises (data : json) :
  extract_try data = Raised <->
  exists (fields : list (str * json)) (value : json),
    (data = JDict fields \/ exists rest, data = JList (JDict fields :: rest))
    /\ dict_get GENERATED_TEXT fields = Some value
    /\ forall s, value <> JStr s.
Proof.
  split.
  - unfold extract_try.
    destruct data as [| | | | |items|fields]; try discriminate.
    + destruct items as [|first rest]; [discriminate|].
      destruct first; simpl; try discriminate.
      destruct (dict_get GENERATED_TEXT fields) as [value|] eqn:Hget.
      * simpl. intros Hraise. exists fields, value.
        split; [right; eauto|]. split; [exact Hget|].
        intros s ->. discriminate Hraise.
      * simpl. destruct (first_long_text fields) as [t|] eqn:Hscan;
          simpl; [|discriminate].
        intros ->. destruct (first_long_text_returns _ _ Hscan). discriminate.
    + simpl. destruct (dict_get GENERATED_TEXT fields) as [value|] eqn:Hget.
      * simpl. intros Hraise. exists fields, value.
        split; [left; reflexivity|]. split; [exact Hget|].
        intros s ->. discriminate Hraise.
      * destruct (dict_get ERROR fields); simpl; [discriminate|].
        destruct (first_long_text fields) as [t|] eqn:Hscan;
          simpl; [|discriminate].
        intros ->. destruct (first_long_text_returns _ _ Hscan). discriminate.
  - intros (fields & value & [->|[rest ->]] & Hget & Hstr);
      unfold extract_try; simpl; rewrite Hget; simpl;
      destruct value; try reflexivity; exfalso; eapply Hstr; reflexivity.
Qed.

(** C7: [_extract_response] is a total function into [str]; when the
    [try] block raises, and when no recognised shape matches and no
    top-level field holds a string longer than 5 characters, it returns
    the unexpected-format marker. *)
Theorem extract_response_marker (data : json) :
  extract_try data = Raised
  \/ (recognized data = false
      /\ forallb (fun field => negb (holds_long_text field))
           (top_level_fields data) = true) ->
  _extract_response data = MSG_UNEXPECTED_FORMAT.
Proof.
  intros [Hraise|[Hshape Hscan]]; unfold _extract_response.
  - rewrite Hraise. reflexivity.
  - rewrite (extract_try_falls_through data Hshape Hscan). reflexivity.
Qed.

Example extract_generated_text :
  _extract_response (JDict [(GENERATED_TEXT, JStr (Py.py "Hello there"))])
  = Py.py "Hello there".
Proof. reflexivity. Qed.

Example extract_first_of_list :
  _extract_response (JList [JDict [(GENERATED_TEXT, JStr (Py.py "Hi"))]])
  = Py.py "Hi".
Proof. reflexivity. Qed.

Example extract_error :
  _extract_response (JDict [(ERROR, JStr (Py.py "model loading"))])
  = Py.py "⚠️ Erro da API: model loading".
Proof. reflexivity. Qed.

Example extract_number_as_text :
  extract_try (JDict [(GENERATED_TEXT, JInt 5)]) = Raised.
Proof. reflexivity. Qed.

Example extract_scans_fields :
  _extract_response
    (JDict [(Py.py "id", JInt 7); (Py.py "text", JStr (Py.py " a reply "))])
  = Py.py "a reply".
Proof. reflexivity. Qed.

End ExtractFacts.

Lemma extract_response_marker_witness :
  (@HuggingFaceClient.extract_try toy_env
     (JDict [(HuggingFaceClient.GENERATED_TEXT, JNull)])
   = HuggingFaceClient.Raised
   \/ (recognized (JDict [(HuggingFaceClient.GENERATED_TEXT, JNull)]) = false
       /\ forallb (fun field => negb (holds_long_text field))
            (top_level_fields
               (JDict [(HuggingFaceClient.GENERATED_TEXT, JNull)])) = true))
  /\ @HuggingFaceClient._extract_response toy_env
       (JDict [(HuggingFaceClient.GENERATED_TEXT, JNull)])
     = HuggingFaceClient.MSG_UNEXPECTED_FORMAT.
Proof.
  assert (H : @HuggingFaceClient.extract_try toy_env
     (JDict [(HuggingFaceClient.GENERATED_TEXT, JNull)])
   = HuggingFaceClient.Raised
   \/ (recognized (JDict [(HuggingFaceClient.GENERATED_TEXT, JNull)]) = false
       /\ forallb (fun field => negb (holds_long_text field))
            (top_level_fields
               (JDict [(HuggingFaceClient.GENERATED_TEXT, JNull)])) = true))
    by (left; reflexivity).
  split; [exact H|].
  exact (@extract_response_marker toy_env _ H).
Defined.

(** ** ChatSession.add_message: validation *)

Section ValidationFacts.
Context {E : Env}.

Lemma lstrip_blank (s : str) :
  forallb Py.is_space s = true -> Py.lstrip s = [].
Proof.
  induction s as [|c s IH]; [reflexivity|].
  simpl. intros [Hc Hs]%andb_prop. rewrite Hc. auto.
Qed.

Lemma strip_blank (s : str) :
  forallb Py.is_space s = true -> Py.strip s = [].
Proof. intros H. unfold Py.strip. rewrite (lstrip_blank s H). reflexivity. Qed.

(** C8: for an empty or whitespace-only [user_input], [add_message] returns
    the validation message and leaves the world as it is: no cache lookup,
    no cache store, no request, no sleep, and the history unchanged. *)
Theorem add_message_rejects_blank (user_input : str) (w : world) :
  forallb Py.is_space user_input = true ->
  ChatSession.add_message user_input w = (ChatSession.MSG_INVALID_INPUT, w).
Proof.
  intros Hblank. unfold ChatSession.add_message.
  rewrite (strip_blank user_input Hblank). simpl.
  rewrite orb_true_r. reflexivity.
Qed.

End ValidationFacts.

Lemma add_message_rejects_blank_witness :
  forallb Py.is_space (Py.py "  ") = true
  /\ @ChatSession.add_message toy_env (Py.py "  ") (fresh 0 offline)
     = (ChatSession.MSG_INVALID_INPUT, fresh 0 offline).
Proof.
  split; [reflexivity|].
  exact (@add_message_rejects_blank toy_env (Py.py "  ") (fresh 0 offline)
           eq_refl).
Defined.

(** ** HuggingFaceClient.query: single steps *)

Section StepFacts.
Context {E : Env}.
Import HuggingFaceClient.

Lemma requests_post_step (inputs : str) (w : world) :
  requests_post inputs w
  = ((endpoint w (requests w)).2, posted inputs (endpoint w (requests w)).1 w).
Proof.
  unfold requests_post, posted. destruct (endpoint w (requests w)).
  reflexivity.
Qed.

Lemma time_sleep_step (seconds : Z) (w : world) :
  time_sleep seconds w = (tt, slept seconds w).
Proof. reflexivity. Qed.

Lemma get_cached_response_step (query : str) (w : world) :
  (APICache.get_cached_response query w).2 = looked_up query w.
Proof.
  destruct w as [c t ep n evs ui br].
  unfold APICache.get_cached_response, bind, record, time_time, ret. simpl.
  destruct (Py.encodable query); [|reflexivity].
  destruct c as [rows|rows|]; simpl; try reflexivity;
    (destruct (rows !! compute_hash query) as [[response timestamp]|];
     [|reflexivity]);
    destruct (t - timestamp <? CACHE_EXPIRY); reflexivity.
Qed.

Lemma retry_loop_cons (inputs : str) (attempt : Z) (attempts : list Z)
    (prompt : str) (w : world) :
  retry_loop inputs (attempt :: attempts) prompt w
  = match attempt_once inputs attempt prompt w with
    | (Continue prompt', w') => retry_loop inputs attempts prompt' w'
    | (Return result, w') => (result, w')
    end.
Proof.
  simpl. unfold bind. destruct (attempt_once inputs attempt prompt w) as [f w'].
  destruct f; reflexivity.
Qed.

(** A miss (or an empty cached text) sends [query] into the loop, with the
    truncated prompt both as payload and as local variable. *)
Lemma query_miss (prompt : str) (w : world) :
  cache_hit (TokenManager.truncate_text prompt MAX_INPUT_LENGTH) w = false ->
  query prompt w
  = retry_loop (TokenManager.truncate_text prompt MAX_INPUT_LENGTH)
      (Py.range 1 (MAX_RETRIES + 1))
      (TokenManager.truncate_text prompt MAX_INPUT_LENGTH)
      (looked_up (TokenManager.truncate_text prompt MAX_INPUT_LENGTH) w).
Proof.
  unfold cache_hit, query, bind. intros Hmiss.
  rewrite <- get_cached_response_step.
  destruct (APICache.get_cached_response _ w) as [[[|c cs]|] w'];
    simpl in *; try reflexivity; discriminate.
Qed.

(** A hit with a non-empty text is returned at once. *)
Lemma query_hit (prompt cached : str) (w : world) :
  (APICache.get_cached_response
     (TokenManager.truncate_text prompt MAX_INPUT_LENGTH) w).1 = Some cached ->
  cached <> [] ->
  query prompt w
  = (cached, looked_up (TokenManager.truncate_text prompt MAX_INPUT_LENGTH) w).
Proof.
  unfold query, bind. intros Hhit Hne.
  rewrite <- get_cached_response_step.
  destruct (APICache.get_cached_response _ w) as [r w']. simpl in *. subst r.
  destruct cached; [congruence|reflexivity].
Qed.

(** HTTP 429: sleep [2 ** attempt], then go on, whatever the attempt. *)
Lemma attempt_once_429 (inputs prompt : str) (attempt latency : Z)
    (body : option json) (w : world) :
  endpoint w (requests w) = (latency, Response 429 body) ->
  attempt_once inputs attempt prompt w
  = (Continue prompt, slept (2 ^ attempt) (posted inputs latency w)).
Proof.
  intros Hreply. unfold attempt_once, bind.
  rewrite requests_post_step, Hreply. reflexivity.
Qed.

(** HTTP 400 with attempts left: no sleep; the local prompt is cut to its
    trailing 100 words when it has more. *)
Lemma attempt_once_400 (inputs prompt : str) (attempt latency : Z)
    (body : option json) (w : world) :
  endpoint w (requests w) = (latency, Response 400 body) ->
  attempt < MAX_RETRIES ->
  attempt_once inputs attempt prompt w
  = (Continue (if (100 <? length (Py.split prompt))%nat
               then salvaged prompt else prompt),
     posted inputs latency w).
Proof.
  intros Hreply Hleft. unfold attempt_once, bind.
  rewrite requests_post_step, Hreply. simpl.
  destruct (Z.ltb_spec attempt MAX_RETRIES); [reflexivity|lia].
Qed.

(** A parsed body with an adequate text: stored under the local [prompt],
    then returned. *)
Lemma attempt_once_success (inputs prompt : str) (attempt latency status : Z)
    (data : json) (w : world) :
  endpoint w (requests w) = (latency, Response status (Some data)) ->
  (400 <=? status) && (status <? 600) = false ->
  too_short (_extract_response data) = false ->
  attempt_once inputs attempt prompt w
  = (Return (_extract_response data),
     (APICache.cache_response prompt (_extract_response data)
        (posted inputs latency w)).2).
Proof.
  intros Hreply Hstatus Hlong. unfold attempt_once, bind.
  rewrite requests_post_step, Hreply. simpl.
  destruct (Z.eqb_spec status 400) as [->|_]; [discriminate|].
  rewrite Hstatus. unfold too_short in Hlong. rewrite Hlong.
  destruct (APICache.cache_response _ _ _) as [[] w']. reflexivity.
Qed.

(** A soft failure with attempts left: sleep and go on. *)
Lemma attempt_once_soft_retry (inputs prompt : str) (attempt latency : Z)
    (r : reply) (w : world) :
  endpoint w (requests w) = (latency, r) ->
  soft_failure r = true ->
  attempt < MAX_RETRIES ->
  attempt_once inputs attempt prompt w
  = (Continue prompt, slept (2 ^ attempt) (posted inputs latency w)).
Proof.
  intros Hreply Hsoft Hleft. unfold attempt_once, bind.
  rewrite requests_post_step, Hreply. simpl.
  destruct r as [status [data|]| | |]; try discriminate.
  simpl in Hsoft. apply andb_prop in Hsoft as [Hstatus Hshort].
  apply negb_true_iff in Hstatus.
  destruct (Z.eqb_spec status 400) as [->|_]; [discriminate|].
  rewrite Hstatus, Hshort, orb_true_r.
  destruct (Z.ltb_spec attempt MAX_RETRIES); [reflexivity|lia].
Qed.

(** A soft failure on the last attempt: the fallback text is stored under
    the local [prompt] and returned. *)
Lemma attempt_once_soft_last (inputs prompt : str) (attempt latency : Z)
    (r : reply) (w : world) :
  endpoint w (requests w) = (latency, r) ->
  soft_failure r = true ->
  MAX_RETRIES <= attempt ->
  attempt_once inputs attempt prompt w
  = (Return MSG_INADEQUATE,
     (APICache.cache_response prompt MSG_INADEQUATE
        (posted inputs latency w)).2).
Proof.
  intros Hreply Hsoft Hlast. unfold attempt_once, bind.
  rewrite requests_post_step, Hreply. simpl.
  destruct r as [status [data|]| | |]; try discriminate.
  simpl in Hsoft. apply andb_prop in Hsoft as [Hstatus Hshort].
  apply negb_true_iff in Hstatus.
  destruct (Z.eqb_spec status 400) as [->|_]; [discriminate|].
  rewrite Hstatus, Hshort, orb_true_r.
  destruct (Z.ltb_spec attempt MAX_RETRIES); [lia|].
  destruct (APICache.cache_response _ _ _) as [[] w']. reflexivity.
Qed.

End StepFacts.

(** ** HuggingFaceClient.query: whole runs *)

Section QueryFacts.
Context {E : Env}.
Import HuggingFaceClient.

Lemma cache_response_step (query response : str) (w : world) :
  (APICache.cache_response query response w).2 = stored query response w.
Proof.
  destruct w as [c t ep n evs ui br].
  unfold APICache.cache_response, stored, table_with, bind, record,
    time_time, set_cache, ret.
  simpl. destruct (Py.encodable query); simpl; destruct c; simpl;
    try reflexivity; destruct (Py.encodable response); reflexivity.
Qed.

Lemma inadequate_not_empty : MSG_INADEQUATE <> [].
Proof. intros H. apply (f_equal length) in H. vm_compute in H. discriminate. Qed.

(** Three 429 answers in a row: the whole run. *)
Lemma query_rate_limited_run (prompt : str) (w : world) :
  cache_hit (TokenManager.truncate_text prompt MAX_INPUT_LENGTH) w = false ->
  (forall i : nat, (i < 3)%nat ->
     exists latency body,
       endpoint w (requests w + i) = (latency, Response 429 body)) ->
  (query prompt w).1 = MSG_NO_RESPONSE
  /\ events (query prompt w).2
     = events w
       ++ [CacheLookup (TokenManager.truncate_text prompt MAX_INPUT_LENGTH);
           Post (TokenManager.truncate_text prompt MAX_INPUT_LENGTH);
           Sleep 2;
           Post (TokenManager.truncate_text prompt MAX_INPUT_LENGTH);
           Sleep 4;
           Post (TokenManager.truncate_text prompt MAX_INPUT_LENGTH);
           Sleep 8]
  /\ requests (query prompt w).2 = (requests w + 3)%nat.
Proof.
  intros Hmiss H429. rewrite (query_miss prompt w Hmiss).
  set (p := TokenManager.truncate_text prompt MAX_INPUT_LENGTH).
  destruct (H429 0%nat) as (l0 & b0 & H0); [lia|].
  destruct (H429 1%nat) as (l1 & b1 & H1); [lia|].
  destruct (H429 2%nat) as (l2 & b2 & H2); [lia|].
  rewrite Nat.add_0_r in H0. rewrite Nat.add_1_r in H1.
  replace (requests w + 2)%nat with (S (S (requests w))) in H2 by lia.
  change (Py.range 1 (MAX_RETRIES + 1)) with [1; 2; 3].
  rewrite retry_loop_cons, (attempt_once_429 p p 1 l0 b0) by exact H0.
  rewrite retry_loop_cons, (attempt_once_429 p p 2 l1 b1) by exact H1.
  rewrite retry_loop_cons, (attempt_once_429 p p 3 l2 b2) by exact H2.
  simpl. rewrite <- !app_assoc. simpl.
  split; [reflexivity|]. split; [reflexivity|]. lia.
Qed.

(** The salvage of line 248 changes the local [prompt] only: the payload
    was built before the loop, so the retry sends the first prompt again,
    and the answer is stored under a text that was never sent. *)
Lemma query_salvage_not_sent (prompt : str) (w : world)
    (l0 l1 status : Z) (b0 : option json) (data : json) :
  cache_hit (TokenManager.truncate_text prompt MAX_INPUT_LENGTH) w = false ->
  endpoint w (requests w) = (l0, Response 400 b0) ->
  endpoint w (S (requests w)) = (l1, Response status (Some data)) ->
  (400 <=? status) && (status <? 600) = false ->
  too_short (_extract_response data) = false ->
  (100 < length (Py.split
                   (TokenManager.truncate_text prompt MAX_INPUT_LENGTH)))%nat ->
  (query prompt w).1 = _extract_response data
  /\ events (query prompt w).2
     = events w
       ++ [CacheLookup (TokenManager.truncate_text prompt MAX_INPUT_LENGTH);
           Post (TokenManager.truncate_text prompt MAX_INPUT_LENGTH);
           Post (TokenManager.truncate_text prompt MAX_INPUT_LENGTH);
           CacheStore
             (salvaged (TokenManager.truncate_text prompt MAX_INPUT_LENGTH))
             (_extract_response data)].
Proof.
  intros Hmiss H0 H1 Hstatus Hlong Hwords. rewrite (query_miss prompt w Hmiss).
  set (p := TokenManager.truncate_text prompt MAX_INPUT_LENGTH) in *.
  change (Py.range 1 (MAX_RETRIES + 1)) with [1; 2; 3].
  rewrite retry_loop_cons, (attempt_once_400 p p 1 l0 b0)
    by (exact H0 || reflexivity).
  destruct (Nat.ltb_spec 100 (length (Py.split p))); [|lia].
  rewrite retry_loop_cons,
    (attempt_once_success p (salvaged p) 2 l1 status data)
    by assumption.
  rewrite cache_response_step. simpl. rewrite <- !app_assoc.
  split; reflexivity.
Qed.

Lemma inadequate_encodable : Py.encodable MSG_INADEQUATE = true.
Proof. vm_compute. reflexivity. Qed.

(** The row a store writes when nothing fails. *)
Lemma table_with_written (query response : str) (t : Z)
    (rows : gmap str (str * Z)) :
  Py.encodable query = true ->
  Py.encodable response = true ->
  table_with query response t (Available rows)
  = Available (<[compute_hash query := (response, t)]> rows).
Proof. intros Hq Hr. unfold table_with. rewrite Hq, Hr. reflexivity. Qed.

(** C9, as amended: when the truncated prompt can be encoded, the cache
    table is available and misses, and the three requests all end in a
    soft failure, [query] returns the fallback text and, as its last act,
    stores it under the truncated prompt with the time of that moment
    (the start of the run plus the three latencies and the two sleeps);
    any later [query] of the same prompt on that table, less than
    [CACHE_EXPIRY] seconds after that time, returns the fallback after the
    lookup alone, with no request. *)
Theorem soft_failure_fallback_cached (prompt : str) (w : world)
    (rows : gmap str (str * Z)) :
  Py.encodable (TokenManager.truncate_text prompt MAX_INPUT_LENGTH) = true ->
  cache w = Available rows ->
  cache_hit (TokenManager.truncate_text prompt MAX_INPUT_LENGTH) w = false ->
  (forall i : nat, (i < 3)%nat ->
     soft_failure (endpoint w (requests w + i)).2 = true) ->
  (query prompt w).1 = MSG_INADEQUATE
  /\ events (query prompt w).2
     = events w
       ++ [CacheLookup (TokenManager.truncate_text prompt MAX_INPUT_LENGTH);
           Post (TokenManager.truncate_text prompt MAX_INPUT_LENGTH);
           Sleep 2;
           Post (TokenManager.truncate_text prompt MAX_INPUT_LENGTH);
           Sleep 4;
           Post (TokenManager.truncate_text prompt MAX_INPUT_LENGTH);
           CacheStore (TokenManager.truncate_text prompt MAX_INPUT_LENGTH)
             MSG_INADEQUATE]
  /\ now (query prompt w).2
     = now w + (endpoint w (requests w)).1 + 2
       + (endpoint w (requests w + 1)).1 + 4
       + (endpoint w (requests w + 2)).1
  /\ cache (query prompt w).2
     = Available
         (<[compute_hash (TokenManager.truncate_text prompt MAX_INPUT_LENGTH)
            := (MSG_INADEQUATE, now (query prompt w).2)]> rows)
  /\ forall w2 : world,
       cache w2 = cache (query prompt w).2 ->
       now w2 - now (query prompt w).2 < CACHE_EXPIRY ->
       query prompt w2
       = (MSG_INADEQUATE,
          looked_up (TokenManager.truncate_text prompt MAX_INPUT_LENGTH) w2).
Proof.
  intros Henc Hc Hmiss Hsoft. rewrite (query_miss prompt w Hmiss).
  set (p := TokenManager.truncate_text prompt MAX_INPUT_LENGTH) in *.
  pose proof (Hsoft 0%nat ltac:(lia)) as H0.
  pose proof (Hsoft 1%nat ltac:(lia)) as H1.
  pose proof (Hsoft 2%nat ltac:(lia)) as H2.
  rewrite Nat.add_0_r in H0. rewrite Nat.add_1_r in *.
  replace (requests w + 2)%nat with (S (S (requests w))) in * by lia.
  destruct (endpoint w (requests w)) as [l0 r0] eqn:E0.
  destruct (endpoint w (S (requests w))) as [l1 r1] eqn:E1.
  destruct (endpoint w (S (S (requests w)))) as [l2 r2] eqn:E2.
  simpl in H0, H1, H2.
  change (Py.range 1 (MAX_RETRIES + 1)) with [1; 2; 3].
  rewrite retry_loop_cons, (attempt_once_soft_retry p p 1 l0 r0)
    by (assumption || reflexivity).
  rewrite retry_loop_cons, (attempt_once_soft_retry p p 2 l1 r1)
    by (assumption || reflexivity).
  rewrite retry_loop_cons, (attempt_once_soft_last p p 3 l2 r2)
    by (assumption || reflexivity).
  rewrite cache_response_step. unfold stored.
  cbn [fst snd cache now events posted slept looked_up].
  rewrite Hc, (table_with_written p MSG_INADEQUATE _ rows Henc
                 inadequate_encodable), <- !app_assoc.
  split; [reflexivity|]. split; [reflexivity|]. split; [reflexivity|].
  split; [reflexivity|].
  intros w2 Hc2 Hfresh. apply query_hit; [|exact inadequate_not_empty].
  fold p.
  rewrite (get_cached_response_row p MSG_INADEQUATE
             (now w + l0 + 2 + l1 + 4 + l2) _ w2 Henc Hc2)
    by apply lookup_insert_eq.
  destruct (Z.ltb_spec (now w2 - (now w + l0 + 2 + l1 + 4 + l2))
              CACHE_EXPIRY); [reflexivity|lia].
Qed.

End QueryFacts.

Lemma cache_hit_empty_table `{Env} (prompt : str) (w : world) :
  cache w = Available ∅ -> cache_hit prompt w = false.
Proof.
  destruct w as [c t ep n evs ui br]. simpl. intros ->.
  unfold cache_hit, APICache.get_cached_response, bind, record, time_time,
    ret.
  simpl. destruct (Py.encodable prompt); simpl; [|reflexivity].
  rewrite lookup_empty. reflexivity.
Qed.

(** C1, on the code: three 429 answers to the prompt "hello" on an empty
    cache.  [query] sends three requests and sleeps 2, 4 and 8 seconds,
    the last sleep after the last request; the loop then ends and the text
    of line 313 is returned, which says that no response came after
    several attempts and names no rate limit. *)
Theorem rate_limited_run_on_code `{Env} :
  (forall i : nat, (i < 3)%nat ->
     exists latency body, always_429 i = (latency, Response 429 body))
  /\ (HuggingFaceClient.query (Py.py "hello") (fresh 0 always_429)).1
     = HuggingFaceClient.MSG_NO_RESPONSE
  /\ HuggingFaceClient.MSG_NO_RESPONSE
     = Py.py "⚠️ Não foi possível obter uma resposta após várias tentativas."
  /\ events (HuggingFaceClient.query (Py.py "hello") (fresh 0 always_429)).2
     = [CacheLookup (Py.py "hello");
        Post (Py.py "hello"); Sleep 2;
        Post (Py.py "hello"); Sleep 4;
        Post (Py.py "hello"); Sleep 8].
Proof.
  assert (H429 : forall i : nat, (i < 3)%nat ->
            exists latency body,
              endpoint (fresh 0 always_429) (requests (fresh 0 always_429) + i)
              = (latency, Response 429 body))
    by (intros i _; exists 1, None; reflexivity).
  destruct (query_rate_limited_run (Py.py "hello") (fresh 0 always_429))
    as (Hresult & Hevents & _).
  - apply cache_hit_empty_table. reflexivity.
  - exact H429.
  - split; [exact H429|]. split; [exact Hresult|].
    split; [vm_compute; reflexivity|]. exact Hevents.
Qed.

(** C3, on the code: a 205-character prompt of 101 words, rejected with 400
    and then answered.  [query] returns the extracted text; both requests
    carry the whole prompt; the answer is stored under the trailing 100
    words, a text that differs from the one sent. *)
Theorem salvaged_prompt_stored_not_sent `{Env} :
  (HuggingFaceClient.query long_prompt (fresh 0 rejects_first)).1
  = Py.py "Hello there"
  /\ events (HuggingFaceClient.query long_prompt (fresh 0 rejects_first)).2
     = [CacheLookup long_prompt;
        Post long_prompt;
        Post long_prompt;
        CacheStore (salvaged long_prompt) (Py.py "Hello there")]
  /\ salvaged long_prompt = Py.join Py.SPACE (repeat (Py.py "w") 100)
  /\ salvaged long_prompt <> long_prompt.
Proof.
  assert (Hp : TokenManager.truncate_text long_prompt MAX_INPUT_LENGTH
               = long_prompt) by (vm_compute; reflexivity).
  destruct (query_salvage_not_sent long_prompt (fresh 0 rejects_first)
              1 1 200 None
              (JList [JDict [(HuggingFaceClient.GENERATED_TEXT,
                              JStr (Py.py "Hello there"))]]))
    as [Hresult Hevents].
  - rewrite Hp. apply cache_hit_empty_table. reflexivity.
  - reflexivity.
  - reflexivity.
  - reflexivity.
  - vm_compute. reflexivity.
  - rewrite Hp. vm_compute. lia.
  - rewrite Hp in Hevents. split; [exact Hresult|]. split; [exact Hevents|].
    split; [vm_compute; reflexivity|].
    intros Heq. apply (f_equal length) in Heq. vm_compute in Heq.
    discriminate Heq.
Qed.

(** C9 fails as stated: with a prompt that holds a lone surrogate the
    three soft failures give the fallback text, the store raises and
    nothing is written, and the same request made again goes to the
    endpoint three more times. *)
Lemma soft_failure_fallback_not_cached :
  (forall i : nat, (i < 3)%nat ->
     @soft_failure toy_env (always_blank i).2 = true)
  /\ (@HuggingFaceClient.query toy_env [55296%N] (fresh 0 always_blank)).1
     = HuggingFaceClient.MSG_INADEQUATE
  /\ cache (@HuggingFaceClient.query toy_env [55296%N]
              (fresh 0 always_blank)).2
     = Available ∅
  /\ requests (@HuggingFaceClient.query toy_env [55296%N]
                 (fresh 0 always_blank)).2 = 3%nat
  /\ requests
       (@HuggingFaceClient.query toy_env [55296%N]
          (@HuggingFaceClient.query toy_env [55296%N]
             (fresh 0 always_blank)).2).2 = 6%nat.
Proof.
  split; [intros i _; vm_compute; reflexivity|].
  repeat split; vm_compute; reflexivity.
Qed.

Lemma soft_failure_fallback_cached_witness :
  Py.encodable (TokenManager.truncate_text (Py.py "hello") MAX_INPUT_LENGTH)
  = true
  /\ cache (fresh 0 always_blank) = Available ∅
  /\ @cache_hit toy_env
       (TokenManager.truncate_text (Py.py "hello") MAX_INPUT_LENGTH)
       (fresh 0 always_blank) = false
  /\ (forall i : nat, (i < 3)%nat ->
        @soft_failure toy_env
          (endpoint (fresh 0 always_blank)
             (requests (fresh 0 always_blank) + i)).2 = true)
  /\ (@HuggingFaceClient.query toy_env (Py.py "hello")
        (fresh 0 always_blank)).1
     = HuggingFaceClient.MSG_INADEQUATE.
Proof.
  assert (Henc : Py.encodable
            (TokenManager.truncate_text (Py.py "hello") MAX_INPUT_LENGTH)
          = true) by (vm_compute; reflexivity).
  assert (Hc : cache (fresh 0 always_blank) = Available ∅) by reflexivity.
  assert (Hmiss : @cache_hit toy_env
            (TokenManager.truncate_text (Py.py "hello") MAX_INPUT_LENGTH)
            (fresh 0 always_blank) = false)
    by (vm_compute; reflexivity).
  assert (Hsoft : forall i : nat, (i < 3)%nat ->
            @soft_failure toy_env
              (endpoint (fresh 0 always_blank)
                 (requests (fresh 0 always_blank) + i)).2 = true)
    by (intros i _; vm_compute; reflexivity).
  split; [exact Henc|]. split; [exact Hc|]. split; [exact Hmiss|].
  split; [exact Hsoft|].
  exact (proj1 (@soft_failure_fallback_cached toy_env (Py.py "hello")
                  (fresh 0 always_blank) ∅ Henc Hc Hmiss Hsoft)).
Defined.

(** The second, identical request of the run above, 100 seconds later: the
    fallback comes from the cache and nothing is sent. *)
Example fallback_served_from_cache :
  let w1 := (@HuggingFaceClient.query toy_env (Py.py "hello")
               (fresh 0 always_blank)).2 in
  let w2 := (elapse 100 w1).2 in
  (@HuggingFaceClient.query toy_env (Py.py "hello") w2).1
  = HuggingFaceClient.MSG_INADEQUATE
  /\ requests (@HuggingFaceClient.query toy_env (Py.py "hello") w2).2
     = requests w1
  /\ events (@HuggingFaceClient.query toy_env (Py.py "hello") w2).2
     = events w1 ++ [CacheLookup (Py.py "hello")].
Proof. vm_compute. auto. Qed.

(** ** The input limit *)

Section LimitFacts.
Context {E : Env}.
Import HuggingFaceClient.

Lemma truncate_text_take (text : str) (max_length : nat) :
  TokenManager.truncate_text text max_length = take max_length text.
Proof.
  unfold TokenManager.truncate_text.
  destruct (Nat.leb_spec (length text) max_length); [|reflexivity].
  symmetry. apply take_ge. assumption.
Qed.

Lemma truncate_text_length (text : str) (max_length : nat) :
  (length (TokenManager.truncate_text text max_length) <= max_length)%nat.
Proof. rewrite truncate_text_take, length_take. lia. Qed.

(** [clampText] twice is [clampText] once. *)
Lemma truncate_text_idempotent (text : str) (max_length : nat) :
  TokenManager.truncate_text
    (TokenManager.truncate_text text max_length) max_length
  = TokenManager.truncate_text text max_length.
Proof. rewrite !truncate_text_take. apply take_idemp. Qed.

(** [split] never makes room: the words, each with one separator, fit in
    the text plus one. *)
Lemma split_from_size (s cur : str) :
  (spaced_size (Py.split_from cur s) <= S (length cur + length s))%nat.
Proof.
  revert cur. induction s as [|c s IH]; intros cur; simpl.
  - destruct cur; simpl; [lia|]. rewrite length_app, length_rev. simpl. lia.
  - destruct (Py.is_space c).
    + destruct cur as [|c' cur].
      * specialize (IH []). simpl in IH. lia.
      * specialize (IH []). simpl in *.
        rewrite length_app, length_rev. simpl. lia.
    + specialize (IH (c :: cur)). simpl in IH. lia.
Qed.

Lemma join_space_size (ws : list str) :
  (length (Py.join Py.SPACE ws) <= pred (spaced_size ws))%nat.
Proof.
  induction ws as [|w ws IH]; [simpl; lia|].
  destruct ws as [|w' ws].
  - simpl. lia.
  - change (Py.join Py.SPACE (w :: w' :: ws))
      with (w ++ Py.SPACE ++ Py.join Py.SPACE (w' :: ws)).
    rewrite !length_app. change (length Py.SPACE) with 1%nat.
    simpl in *. lia.
Qed.

Lemma spaced_size_drop (k : nat) (ws : list str) :
  (spaced_size (drop k ws) <= spaced_size ws)%nat.
Proof.
  revert k. induction ws as [|w ws IH]; intros [|k]; simpl; try lia.
  specialize (IH k). lia.
Qed.

(** The salvaged prompt is never longer than the prompt. *)
Lemma salvaged_length (prompt : str) :
  (length (salvaged prompt) <= length prompt)%nat.
Proof.
  unfold salvaged, Py.last_n, Py.split.
  pose proof (join_space_size
                (drop (length (Py.split_from [] prompt) - 100)
                   (Py.split_from [] prompt))).
  pose proof (spaced_size_drop (length (Py.split_from [] prompt) - 100)
                (Py.split_from [] prompt)).
  pose proof (split_from_size prompt []). simpl in *. lia.
Qed.

Lemma cache_response_run (query response : str) (w : world) :
  APICache.cache_response query response w = (tt, stored query response w).
Proof.
  rewrite <- cache_response_step.
  destruct (APICache.cache_response query response w) as [[] w'].
  reflexivity.
Qed.

(** One turn of the loop only appends events; they carry the payload or
    the local prompt; the prompt handed to the next turn is no longer. *)
Lemma attempt_once_footprint (inputs prompt : str) (attempt : Z) (w : world) :
  exists new : list event,
    events (attempt_once inputs attempt prompt w).2 = events w ++ new
    /\ Forall (fun e => event_text e = inputs \/ event_text e = prompt
                        \/ event_text e = []) new
    /\ match (attempt_once inputs attempt prompt w).1 with
       | Continue prompt' => (length prompt' <= length prompt)%nat
       | Return _ => True
       end.
Proof.
  unfold attempt_once, backoff_or, bind. rewrite requests_post_step.
  destruct (endpoint w (requests w)) as [latency r]. simpl.
  destruct r as [status body| | |];
    repeat match goal with
      | |- context [APICache.cache_response ?q ?r ?w] =>
          rewrite (cache_response_run q r w)
      | |- context [if ?b then _ else _] => destruct b
      | |- context [match ?b with Some _ => _ | None => _ end] => destruct b
      end;
    simpl; rewrite <- ?app_assoc;
    (eexists; split; [reflexivity|]; split;
     [simpl;
      repeat match goal with
        | |- Forall _ (_ :: _) => constructor; [simpl; auto|]
        | |- Forall _ [] => constructor
        end
     |simpl; try exact (salvaged_length prompt); auto]).
Qed.

Lemma retry_loop_footprint (attempts : list Z) :
  forall (inputs prompt : str) (w : world),
    (length inputs <= MAX_INPUT_LENGTH)%nat ->
    (length prompt <= MAX_INPUT_LENGTH)%nat ->
    exists new : list event,
      events (retry_loop inputs attempts prompt w).2 = events w ++ new
      /\ Forall within_limit new.
Proof.
  induction attempts as [|attempt attempts IH]; intros inputs prompt w Hi Hp.
  - exists []. simpl. rewrite app_nil_r. auto.
  - rewrite retry_loop_cons.
    destruct (attempt_once_footprint inputs prompt attempt w)
      as (new & Hev & Hnew & Hnext).
    assert (Hlim : Forall within_limit new).
    { eapply Forall_impl; [exact Hnew|]. unfold within_limit.
      intros e [->|[->| ->]]; simpl; auto; lia. }
    destruct (attempt_once inputs attempt prompt w) as [[prompt'|result] w'].
    + simpl in Hev, Hnext.
      destruct (IH inputs prompt' w' Hi ltac:(lia)) as (new' & Hev' & Hnew').
      exists (new ++ new'). rewrite Hev', Hev, app_assoc. split; [reflexivity|].
      apply Forall_app. auto.
    + exists new. auto.
Qed.

(** [query] reads its prompt through [truncate_text] only. *)
Lemma query_take (prompt : str) (w : world) :
  query prompt w = query (take MAX_INPUT_LENGTH prompt) w.
Proof.
  unfold query. rewrite <- truncate_text_take, truncate_text_idempotent.
  reflexivity.
Qed.

(** Texts that agree on their first [MAX_INPUT_LENGTH] characters are the
    same prompt to [query]. *)
Lemma query_ignores_tail (prompt prompt' : str) (w : world) :
  take MAX_INPUT_LENGTH prompt = take MAX_INPUT_LENGTH prompt' ->
  query prompt w = query prompt' w.
Proof.
  intros Heq. rewrite (query_take prompt), (query_take prompt'), Heq.
  reflexivity.
Qed.

Lemma query_footprint (prompt : str) (w : world) :
  exists new : list event,
    events (query prompt w).2 = events w ++ new
    /\ Forall within_limit new.
Proof.
  pose proof (truncate_text_length prompt MAX_INPUT_LENGTH) as Hlen.
  destruct (cache_hit (TokenManager.truncate_text prompt MAX_INPUT_LENGTH) w)
    eqn:Hhit.
  - unfold cache_hit in Hhit.
    destruct (APICache.get_cached_response _ w).1 as [[|c cs]|] eqn:Hget;
      try discriminate.
    rewrite (query_hit prompt (c :: cs) w Hget) by discriminate.
    eexists. split; [reflexivity|]. constructor; [exact Hlen|constructor].
  - rewrite (query_miss prompt w Hhit).
    destruct (retry_loop_footprint (Py.range 1 (MAX_RETRIES + 1))
                (TokenManager.truncate_text prompt MAX_INPUT_LENGTH)
                (TokenManager.truncate_text prompt MAX_INPUT_LENGTH)
                (looked_up
                   (TokenManager.truncate_text prompt MAX_INPUT_LENGTH) w)
                Hlen Hlen) as (new & Hev & Hnew).
    eexists. split.
    + rewrite Hev. simpl. rewrite <- app_assoc. reflexivity.
    + constructor; [exact Hlen|exact Hnew].
Qed.

(** The text [add_message] hands to [query] may be longer than the limit:
    up to 200 characters of context, a space, and the clamped input. *)
Lemma user_query_length (truncated_inputs truncated_responses : list str)
    (user_input : str) :
  (length user_input <= MAX_INPUT_LENGTH)%nat ->
  (length (ChatSession.user_query truncated_inputs truncated_responses
             user_input) <= 713)%nat.
Proof.
  intros Hlen. unfold ChatSession.user_query, MAX_INPUT_LENGTH in *.
  destruct (if (3 <=? length truncated_inputs)%nat
            then (Py.last_n 3 truncated_inputs,
                  Py.last_n 3 truncated_responses)
            else (truncated_inputs, truncated_responses)) as [inputs responses].
  destruct (last inputs) as [last_input|]; [|lia].
  destruct (last responses) as [last_response|]; [|lia].
  destruct (Nat.ltb_spec 200
              (length (last_input ++ Py.SPACE ++ last_response)));
    unfold Py.last_n; rewrite !length_app, ?length_drop;
    change (length Py.SPACE) with 1%nat; rewrite ?length_app in *;
    change (length Py.SPACE) with 1%nat in *; lia.
Qed.

(** The same through [add_message]: whatever the history and the input,
    the cache and the endpoint only see texts within the limit. *)
Lemma add_message_footprint (user_input : str) (w : world) :
  exists new : list event,
    events (ChatSession.add_message user_input w).2 = events w ++ new
    /\ Forall within_limit new.
Proof.
  unfold ChatSession.add_message.
  destruct (bool_decide (user_input = [])
            || (length (Py.strip user_input) =? 0)%nat).
  - exists []. simpl. rewrite app_nil_r. auto.
  - unfold bind, ChatSession.append_user_input, ChatSession.session_state,
      ChatSession.append_bot_response, ret.
    destruct (TokenManager.truncate_history _ _ _) as [inputs responses].
    match goal with
    | |- context [query ?q ?w1] =>
        destruct (query_footprint q w1) as (new & Hev & Hnew);
        destruct (query q w1) as [reply w2]
    end.
    exists new. simpl in *. auto.
Qed.

(** C10: every text [query] hands to the cache (lookup and store) or to
    the endpoint has at most [MAX_INPUT_LENGTH] characters, whatever the
    length of the prompt it receives, and [query] behaves on a prompt as on
    its first [MAX_INPUT_LENGTH] characters. *)
Theorem query_within_input_limit (prompt : str) (w : world) :
  (exists new : list event,
     events (query prompt w).2 = events w ++ new
     /\ Forall within_limit new)
  /\ query prompt w = query (take MAX_INPUT_LENGTH prompt) w.
Proof. split; [apply query_footprint|apply query_take]. Qed.

End LimitFacts.

(** An assembled prompt of 713 characters: 200 of context, a space, and an
    input of 512.  What reaches the cache and the endpoint is its first
    512 characters. *)
Example assembled_prompt_is_cut :
  let history := World (Available ∅) 0 offline 0 []
                   [repeat 97%N 150] [repeat 98%N 150] in
  length (ChatSession.user_query [repeat 97%N 150] [repeat 98%N 150]
            (repeat 99%N 512)) = 713%nat
  /\ map (fun e => length (event_text e))
       (events (@ChatSession.add_message toy_env (repeat 99%N 600) history).2)
     = [512; 512]%nat.
Proof. vm_compute. auto. Qed.

(** * Further properties *)

(** ** TokenManager *)

Section TokenManagerMore.
Import TokenManager.

(** [truncate_text] returns a prefix of the text, of [min (len text)
    max_length] characters, and applying it again changes nothing. *)
Theorem truncate_text_prefix (text : str) (max_length : nat) :
  truncate_text text max_length `prefix_of` text
  /\ length (truncate_text text max_length)
     = Nat.min (length text) max_length
  /\ truncate_text (truncate_text text max_length) max_length
     = truncate_text text max_length.
Proof.
  rewrite !truncate_text_take. split; [|split].
  - exists (drop max_length text). symmetry. apply take_drop.
  - rewrite length_take. lia.
  - apply take_idemp.
Qed.

(** The loop stops at the first index where the rest fits: every shorter
    cut leaves a history over the budget. *)
Lemma drop_oldest_least (max_tokens : Z) (inputs : list str) :
  forall (responses : list str) (total : Z),
    total = sum_tokens (inputs ++ responses) ->
    exists k : nat,
      drop_oldest max_tokens total inputs responses
      = (drop k inputs, drop k responses)
      /\ forall j : nat, (j < k)%nat ->
           sum_tokens (drop j inputs ++ drop j responses) > max_tokens.
Proof.
  induction inputs as [|i inputs IH]; intros responses total Htotal.
  - exists 0%nat. rewrite drop_oldest_nil_l. split; [reflexivity|lia].
  - simpl drop_oldest. destruct (Z.gtb_spec total max_tokens) as [Hover|Hok].
    + destruct responses as [|r responses].
      * exists 0%nat. split; [reflexivity|lia].
      * destruct (IH responses
                    (total - (estimate_tokens i + estimate_tokens r)))
          as (k & Hk & Hleast).
        { subst total. apply sum_tokens_pop. }
        exists (S k). split; [exact Hk|].
        intros [|j] Hj.
        -- rewrite !drop_0. lia.
        -- apply Hleast. lia.
    + exists 0%nat. split; [reflexivity|lia].
Qed.

(** When the turn cap does not fire, [truncate_history] drops no more than
    it must: it removes the [k] oldest pairs, and with fewer than [k]
    removed the history is over the budget. *)
Theorem truncate_history_drops_least
    (inputs responses : list str) (max_tokens : Z) :
  (length inputs <= MAX_CONVERSATION_TURNS)%nat ->
  exists k : nat,
    truncate_history inputs responses max_tokens
    = (drop k inputs, drop k responses)
    /\ forall j : nat, (j < k)%nat ->
         sum_tokens (drop j inputs ++ drop j responses) > max_tokens.
Proof.
  intros Hlen. rewrite truncate_history_no_cap by assumption.
  destruct (Z.leb_spec (sum_tokens (inputs ++ responses)) max_tokens).
  - exists 0%nat. split; [reflexivity|lia].
  - apply drop_oldest_least. reflexivity.
Qed.

(** For a history of pairs (as many responses as inputs) on which the turn
    cap does not fire, and a budget that is not negative, the result is
    again a history of pairs and its cost is within the budget. *)
Theorem truncate_history_within_budget
    (inputs responses : list str) (max_tokens : Z) :
  length inputs = length responses ->
  (length inputs <= MAX_CONVERSATION_TURNS)%nat ->
  0 <= max_tokens ->
  length (truncate_history inputs responses max_tokens).1
  = length (truncate_history inputs responses max_tokens).2
  /\ sum_tokens ((truncate_history inputs responses max_tokens).1
                 ++ (truncate_history inputs responses max_tokens).2)
     <= max_tokens.
Proof.
  intros Hpairs Hlen Hmax. rewrite truncate_history_no_cap by assumption.
  destruct (Z.leb_spec (sum_tokens (inputs ++ responses)) max_tokens).
  - simpl. auto.
  - destruct (drop_oldest_spec max_tokens inputs responses _ eq_refl)
      as (k & -> & Hstop).
    simpl. assert (Hdrop : length (drop k inputs) = length (drop k responses))
      by (rewrite !length_drop; lia).
    split; [exact Hdrop|].
    destruct Hstop as [Hfits|[Hnil|Hnil]]; [exact Hfits| |];
      rewrite Hnil in *; simpl in Hdrop.
    + symmetry in Hdrop. apply nil_length_inv in Hdrop. rewrite Hdrop.
      exact Hmax.
    + apply nil_length_inv in Hdrop. rewrite Hdrop. exact Hmax.
Qed.

End TokenManagerMore.

Lemma truncate_history_drops_least_witness :
  let inputs := [repeat 97%N 400; repeat 98%N 400; Py.py "hi"] in
  let responses := [Py.py "ok"; Py.py "ok"; Py.py "ok"] in
  (length inputs <= MAX_CONVERSATION_TURNS)%nat
  /\ exists k : nat,
       TokenManager.truncate_history inputs responses 150
       = (drop k inputs, drop k responses)
       /\ forall j : nat, (j < k)%nat ->
            TokenManager.sum_tokens (drop j inputs ++ drop j responses) > 150.
Proof.
  intros inputs responses.
  assert (Hlen : (length inputs <= MAX_CONVERSATION_TURNS)%nat)
    by (vm_compute; lia).
  split; [exact Hlen|].
  exact (truncate_history_drops_least inputs responses 150 Hlen).
Defined.

Lemma truncate_history_within_budget_witness :
  let inputs := [repeat 97%N 400; repeat 98%N 400; Py.py "hi"] in
  let responses := [Py.py "ok"; Py.py "ok"; Py.py "ok"] in
  length inputs = length responses
  /\ (length inputs <= MAX_CONVERSATION_TURNS)%nat
  /\ 0 <= 150
  /\ TokenManager.sum_tokens
       ((TokenManager.truncate_history inputs responses 150).1
        ++ (TokenManager.truncate_history inputs responses 150).2)
     <= 150.
Proof.
  intros inputs responses.
  assert (Hpairs : length inputs = length responses) by reflexivity.
  assert (Hlen : (length inputs <= MAX_CONVERSATION_TURNS)%nat)
    by (vm_compute; lia).
  assert (Hmax : 0 <= 150) by lia.
  split; [exact Hpairs|]. split; [exact Hlen|]. split; [exact Hmax|].
  exact (proj2 (truncate_history_within_budget inputs responses 150
                  Hpairs Hlen Hmax)).
Defined.

(** ** APICache *)

Section APICacheMore.
Context {E : Env}.
Import APICache.

Lemma cache_response_world (query response : str) (w : world) :
  cache_response query response w = (tt, stored query response w).
Proof.
  destruct w as [c t ep n evs ui br].
  unfold cache_response, stored, table_with, bind, record, time_time,
    set_cache, ret.
  simpl. destruct (Py.encodable query); simpl; destruct c; simpl;
    try reflexivity; destruct (Py.encodable response); reflexivity.
Qed.

Lemma elapse_world (seconds : Z) (w : world) :
  cache (elapse seconds w).2 = cache w
  /\ now (elapse seconds w).2 = now w + seconds.
Proof. split; reflexivity. Qed.

(** A store on an available table leaves an available table. *)
Lemma table_with_available (query response : str) (t : Z)
    (rows : gmap str (str * Z)) :
  exists rows' : gmap str (str * Z),
    table_with query response t (Available rows) = Available rows'.
Proof.
  unfold table_with.
  destruct (Py.encodable query && Py.encodable response); eauto.
Qed.

(** A store replaces what was stored for the same text: after two stores
    on an available table, the text and the second response being
    encodable, a lookup less than [CACHE_EXPIRY] seconds after the second
    returns the second response, however long after the first. *)
Theorem cache_last_store_wins (query first second : str) (gap elapsed : Z)
    (rows : gmap str (str * Z)) (w : world) :
  Py.encodable query = true ->
  Py.encodable second = true ->
  cache w = Available rows ->
  elapsed < CACHE_EXPIRY ->
  ((let* _ := cache_response query first in
    let* _ := elapse gap in
    let* _ := cache_response query second in
    let* _ := elapse elapsed in
    get_cached_response query) w).1 = Some second.
Proof.
  intros Hq Hs Hc Hfresh. unfold bind.
  rewrite cache_response_world. cbv beta iota.
  unfold elapse at 1. cbv beta iota.
  rewrite cache_response_world. cbv beta iota.
  unfold elapse at 1. cbv beta iota.
  unfold stored. cbn [cache now]. rewrite Hc.
  destruct (table_with_available query first (now w) rows) as [rows1 ->].
  rewrite (table_with_written query second _ rows1 Hq Hs).
  rewrite (get_cached_response_row query second (now w + gap)
             (<[compute_hash query := (second, now w + gap)]> rows1));
    [|exact Hq|reflexivity|apply lookup_insert_eq].
  cbn [now].
  destruct (Z.ltb_spec (now w + gap + elapsed - (now w + gap)) CACHE_EXPIRY);
    [reflexivity|lia].
Qed.

(** A store leaves the lookups of texts with another digest as they were. *)
Theorem cache_store_other_text (query response other : str) (w : world) :
  compute_hash query <> compute_hash other ->
  ((let* _ := cache_response query response in
    get_cached_response other) w).1
  = (get_cached_response other w).1.
Proof.
  intros Hne. unfold bind. rewrite cache_response_world. cbv beta iota.
  destruct w as [c t ep n evs ui br].
  unfold get_cached_response, stored, table_with, bind, record, time_time,
    ret.
  simpl. destruct (Py.encodable other); [|reflexivity]. simpl.
  destruct c as [rows|rows|]; simpl; try reflexivity.
  - destruct (Py.encodable query && Py.encodable response); simpl;
      rewrite ?lookup_insert_ne by exact Hne;
      (destruct (rows !! compute_hash other) as [[found timestamp]|];
       [|reflexivity]);
      destruct (t - timestamp <? CACHE_EXPIRY); reflexivity.
  - destruct (rows !! compute_hash other) as [[found timestamp]|];
      [|reflexivity].
    destruct (t - timestamp <? CACHE_EXPIRY); reflexivity.
Qed.

End APICacheMore.

Lemma cache_last_store_wins_witness :
  Py.encodable (Py.py "hi") = true
  /\ Py.encodable (Py.py "new") = true
  /\ cache (fresh 1000 offline) = Available ∅
  /\ 10 < CACHE_EXPIRY
  /\ ((let* _ := @APICache.cache_response toy_env (Py.py "hi") (Py.py "old") in
       let* _ := elapse 5000 in
       let* _ := @APICache.cache_response toy_env (Py.py "hi") (Py.py "new") in
       let* _ := elapse 10 in
       @APICache.get_cached_response toy_env (Py.py "hi"))
        (fresh 1000 offline)).1
     = Some (Py.py "new").
Proof.
  assert (Hfresh : 10 < CACHE_EXPIRY) by reflexivity.
  split; [reflexivity|]. split; [reflexivity|].
  split; [reflexivity|]. split; [exact Hfresh|].
  exact (@cache_last_store_wins toy_env (Py.py "hi") (Py.py "old")
           (Py.py "new") 5000 10 ∅ (fresh 1000 offline)
           eq_refl eq_refl eq_refl Hfresh).
Defined.

Lemma cache_store_other_text_witness :
  @compute_hash toy_env (Py.py "hi") <> @compute_hash toy_env (Py.py "yo")
  /\ ((let* _ := @APICache.cache_response toy_env (Py.py "hi") (Py.py "a") in
       @APICache.get_cached_response toy_env (Py.py "yo"))
        (fresh 0 offline)).1
     = (@APICache.get_cached_response toy_env (Py.py "yo") (fresh 0 offline)).1.
Proof.
  assert (Hne : @compute_hash toy_env (Py.py "hi")
                <> @compute_hash toy_env (Py.py "yo"))
    by (vm_compute; discriminate).
  split; [exact Hne|].
  exact (@cache_store_other_text toy_env (Py.py "hi") (Py.py "a")
           (Py.py "yo") (fresh 0 offline) Hne).
Defined.

(** ** HuggingFaceClient.query: every run *)

Section RunFacts.
Context {E : Env}.
Import HuggingFaceClient.

(** The four ways one turn of the loop ends, after its request: go on at
    once, go on after a sleep, return without a store, return after a
    store under the local prompt. *)
Lemma attempt_once_cases (inputs prompt : str) (attempt : Z) (w : world) :
  (exists prompt',
     attempt_once inputs attempt prompt w
     = (Continue prompt', posted inputs (endpoint w (requests w)).1 w))
  \/ attempt_once inputs attempt prompt w
     = (Continue prompt,
        slept (2 ^ attempt) (posted inputs (endpoint w (requests w)).1 w))
  \/ (exists msg,
        attempt_once inputs attempt prompt w
        = (Return msg, posted inputs (endpoint w (requests w)).1 w))
  \/ (exists result,
        (2 <= length result)%nat
        /\ attempt_once inputs attempt prompt w
           = (Return result,
              stored prompt result
                (posted inputs (endpoint w (requests w)).1 w))).
Proof.
  unfold attempt_once, backoff_or, bind. rewrite requests_post_step.
  destruct (endpoint w (requests w)) as [latency r]. simpl.
  destruct r as [status body| | |];
    repeat match goal with
      | |- context [APICache.cache_response ?q ?r ?w] =>
          rewrite (cache_response_run q r w)
      | |- context [if ?b then _ else _] => destruct b eqn:?
      | |- context [match ?b with Some _ => _ | None => _ end] => destruct b
      end;
    first [ left; eexists; reflexivity
          | right; left; reflexivity
          | right; right; left; eexists; reflexivity
          | right; right; right; eexists; split; [|reflexivity] ];
    first [ vm_compute; lia
          | match goal with
            | H : _ || (length _ <? 2)%nat = false |- _ =>
                apply orb_false_elim in H as [_ H];
                apply Nat.ltb_ge in H; exact H
            end ].
Qed.

Lemma backoff_total_nonneg (attempts : list Z) : 0 <= backoff_total attempts.
Proof.
  induction attempts as [|a attempts IH]; simpl; [lia|].
  pose proof (Z.pow_nonneg 2 a). lia.
Qed.

(** What every run of the loop looks like. *)
Lemma retry_loop_run (attempts : list Z) :
  forall (inputs prompt : str) (w : world),
    exists pre : list event,
      forallb (fun e => negb (is_store e)) pre = true
      /\ (posts pre <= length attempts)%nat
      /\ (attempts <> [] -> (1 <= posts pre)%nat)
      /\ 0 <= sleep_total pre <= backoff_total attempts
      /\ requests (retry_loop inputs attempts prompt w).2
         = (requests w + posts pre)%nat
      /\ endpoint (retry_loop inputs attempts prompt w).2 = endpoint w
      /\ user_inputs (retry_loop inputs attempts prompt w).2 = user_inputs w
      /\ bot_responses (retry_loop inputs attempts prompt w).2
         = bot_responses w
      /\ ((events (retry_loop inputs attempts prompt w).2 = events w ++ pre
           /\ cache (retry_loop inputs attempts prompt w).2 = cache w)
          \/ exists key,
               events (retry_loop inputs attempts prompt w).2
               = events w ++ pre
                 ++ [CacheStore key
                       (retry_loop inputs attempts prompt w).1]
               /\ cache (retry_loop inputs attempts prompt w).2
                  = table_with key (retry_loop inputs attempts prompt w).1
                      (now (retry_loop inputs attempts prompt w).2)
                      (cache w)
               /\ (2 <= length (retry_loop inputs attempts prompt w).1)%nat).
Proof.
  induction attempts as [|attempt attempts IH]; intros inputs prompt w.
  - exists []. simpl. rewrite app_nil_r.
    repeat split; try reflexivity; try lia; try congruence. left. auto.
  - rewrite retry_loop_cons.
    pose proof (backoff_total_nonneg attempts) as Hb.
    pose proof (Z.pow_nonneg 2 attempt ltac:(lia)) as Hp.
    destruct (attempt_once_cases inputs prompt attempt w)
      as [[prompt' ->]|[->|[[msg ->]|[result [Hlong ->]]]]].
    + destruct (IH inputs prompt'
                  (posted inputs (endpoint w (requests w)).1 w))
        as (pre & Hns & Hposts & _ & Hsleep & Hreq & Hep & Hui & Hbr & Hev).
      exists (Post inputs :: pre). simpl in *.
      rewrite Hreq, Hep, Hui, Hbr.
      repeat split; try assumption; try lia.
      destruct Hev as [[Hev Hc]|(key & Hev & Hc & Hlong)].
      * left. rewrite Hev, Hc, <- app_assoc. auto.
      * right. exists key. rewrite Hev, Hc, <- app_assoc. auto.
    + destruct (IH inputs prompt
                  (slept (2 ^ attempt)
                     (posted inputs (endpoint w (requests w)).1 w)))
        as (pre & Hns & Hposts & _ & Hsleep & Hreq & Hep & Hui & Hbr & Hev).
      exists (Post inputs :: Sleep (2 ^ attempt) :: pre). simpl in *.
      rewrite Hreq, Hep, Hui, Hbr.
      repeat split; try assumption; try lia.
      destruct Hev as [[Hev Hc]|(key & Hev & Hc & Hlong)].
      * left. rewrite Hev, Hc, <- !app_assoc. auto.
      * right. exists key. rewrite Hev, Hc, <- !app_assoc. auto.
    + exists [Post inputs]. simpl.
      repeat split; try reflexivity; try lia. left. auto.
    + exists [Post inputs]. simpl.
      repeat split; try reflexivity; try lia.
      right. exists prompt. rewrite <- app_assoc. split; [reflexivity|].
      split; [|exact Hlong].
      unfold table_with. destruct (cache w); reflexivity.
Qed.

End RunFacts.

(** ** HuggingFaceClient.query: the failure classes *)

Section ClassFacts.
Context {E : Env}.
Import HuggingFaceClient.

(** HTTP 400 on the last attempt. *)
Lemma attempt_once_400_last (inputs prompt : str) (attempt latency : Z)
    (body : option json) (w : world) :
  endpoint w (requests w) = (latency, Response 400 body) ->
  MAX_RETRIES <= attempt ->
  attempt_once inputs attempt prompt w
  = (Return MSG_BAD_REQUEST, posted inputs latency w).
Proof.
  intros Hreply Hlast. unfold attempt_once, bind.
  rewrite requests_post_step, Hreply. simpl.
  destruct (Z.ltb_spec attempt MAX_RETRIES); [lia|reflexivity].
Qed.

Lemma attempt_once_transient (inputs prompt msg : str) (attempt latency : Z)
    (r : reply) (w : world) :
  endpoint w (requests w) = (latency, r) ->
  transient r = Some msg ->
  attempt_once inputs attempt prompt w
  = if attempt <? MAX_RETRIES
    then (Continue prompt, slept (2 ^ attempt) (posted inputs latency w))
    else (Return msg, posted inputs latency w).
Proof.
  intros Hreply Hclass. unfold attempt_once, backoff_or, bind.
  rewrite requests_post_step, Hreply. simpl.
  destruct r as [status body| | |]; simpl in Hclass; try discriminate.
  - destruct (Z.eqb_spec status 400) as [->|Hne]; [discriminate|].
    destruct ((500 <=? status) && (status <? 600)) eqn:H5.
    + injection Hclass as <-.
      apply andb_prop in H5 as [Hlo Hhi].
      apply Z.leb_le in Hlo. apply Z.ltb_lt in Hhi.
      destruct (Z.leb_spec 400 status); [|lia].
      destruct (Z.ltb_spec status 600); [|lia]. simpl.
      destruct (Z.eqb_spec status 429); [lia|].
      destruct (Z.geb_spec status 500); [|lia].
      destruct (attempt <? MAX_RETRIES); reflexivity.
    + destruct ((400 <=? status) && (status <? 600)); [discriminate|].
      destruct body; [discriminate|].
      destruct json_error_is_request_exception; [discriminate|].
      injection Hclass as <-.
      destruct (attempt <? MAX_RETRIES); reflexivity.
  - injection Hclass as <-.
    destruct (attempt <? MAX_RETRIES); reflexivity.
Qed.

Lemma attempt_once_permanent (inputs prompt msg : str) (attempt latency : Z)
    (r : reply) (w : world) :
  endpoint w (requests w) = (latency, r) ->
  permanent r = Some msg ->
  attempt_once inputs attempt prompt w
  = (Return msg, posted inputs latency w).
Proof.
  intros Hreply Hclass. unfold attempt_once, backoff_or, bind.
  rewrite requests_post_step, Hreply. simpl.
  destruct r as [status body| | |]; simpl in Hclass; try discriminate;
    try (injection Hclass as <-; reflexivity).
  destruct (Z.eqb_spec status 400) as [->|Hne]; [discriminate|].
  destruct ((400 <? status) && (status <? 500) && negb (status =? 429))
    eqn:H4.
  - injection Hclass as <-.
    apply andb_prop in H4 as [H4 Hn]. apply andb_prop in H4 as [Hlo Hhi].
    apply Z.ltb_lt in Hlo. apply Z.ltb_lt in Hhi.
    apply negb_true_iff in Hn. rewrite Hn.
    destruct (Z.leb_spec 400 status); [|lia].
    destruct (Z.ltb_spec status 600); [|lia]. simpl.
    destruct (Z.geb_spec status 500); [lia|reflexivity].
  - destruct ((400 <=? status) && (status <? 600)); [discriminate|].
    destruct body; [discriminate|].
    destruct json_error_is_request_exception; [|discriminate].
    injection Hclass as <-. reflexivity.
Qed.

(** A reply of a class that is not retried ends the run after one request:
    [query] returns the message of the class, sleeps nowhere and stores
    nothing. *)
Theorem query_permanent_failure (prompt msg : str) (w : world) :
  cache_hit (TokenManager.truncate_text prompt MAX_INPUT_LENGTH) w = false ->
  permanent (endpoint w (requests w)).2 = Some msg ->
  (query prompt w).1 = msg
  /\ events (query prompt w).2
     = events w
       ++ [CacheLookup (TokenManager.truncate_text prompt MAX_INPUT_LENGTH);
           Post (TokenManager.truncate_text prompt MAX_INPUT_LENGTH)]
  /\ cache (query prompt w).2 = cache w.
Proof.
  intros Hmiss Hclass. rewrite (query_miss prompt w Hmiss).
  set (p := TokenManager.truncate_text prompt MAX_INPUT_LENGTH).
  destruct (endpoint w (requests w)) as [latency r] eqn:Hreply.
  change (Py.range 1 (MAX_RETRIES + 1)) with [1; 2; 3].
  rewrite retry_loop_cons, (attempt_once_permanent p p msg 1 latency r)
    by assumption.
  simpl. rewrite <- app_assoc. auto.
Qed.

(** Three replies of transient classes: [query] sends three requests,
    sleeps 2 and 4 seconds between them and not after the last, stores
    nothing, and returns the message of the class of the last reply. *)
Theorem query_transient_failures (prompt msg : str) (w : world) :
  cache_hit (TokenManager.truncate_text prompt MAX_INPUT_LENGTH) w = false ->
  (forall i : nat, (i < 2)%nat ->
     transient (endpoint w (requests w + i)).2 <> None) ->
  transient (endpoint w (requests w + 2)).2 = Some msg ->
  (query prompt w).1 = msg
  /\ events (query prompt w).2
     = events w
       ++ [CacheLookup (TokenManager.truncate_text prompt MAX_INPUT_LENGTH);
           Post (TokenManager.truncate_text prompt MAX_INPUT_LENGTH);
           Sleep 2;
           Post (TokenManager.truncate_text prompt MAX_INPUT_LENGTH);
           Sleep 4;
           Post (TokenManager.truncate_text prompt MAX_INPUT_LENGTH)]
  /\ cache (query prompt w).2 = cache w.
Proof.
  intros Hmiss Hfirst Hlast. rewrite (query_miss prompt w Hmiss).
  set (p := TokenManager.truncate_text prompt MAX_INPUT_LENGTH).
  pose proof (Hfirst 0%nat ltac:(lia)) as H0.
  pose proof (Hfirst 1%nat ltac:(lia)) as H1.
  rewrite Nat.add_0_r in H0. rewrite Nat.add_1_r in H1.
  replace (requests w + 2)%nat with (S (S (requests w))) in Hlast by lia.
  destruct (endpoint w (requests w)) as [l0 r0] eqn:E0.
  destruct (endpoint w (S (requests w))) as [l1 r1] eqn:E1.
  destruct (endpoint w (S (S (requests w)))) as [l2 r2] eqn:E2.
  simpl in H0, H1, Hlast.
  destruct (transient r0) as [m0|] eqn:T0; [|congruence].
  destruct (transient r1) as [m1|] eqn:T1; [|congruence].
  change (Py.range 1 (MAX_RETRIES + 1)) with [1; 2; 3].
  rewrite retry_loop_cons, (attempt_once_transient p p m0 1 l0 r0)
    by assumption.
  change (1 <? MAX_RETRIES) with true. cbv iota.
  rewrite retry_loop_cons, (attempt_once_transient p p m1 2 l1 r1)
    by assumption.
  change (2 <? MAX_RETRIES) with true. cbv iota.
  rewrite retry_loop_cons, (attempt_once_transient p p msg 3 l2 r2)
    by assumption.
  change (3 <? MAX_RETRIES) with false. cbv iota.
  simpl. rewrite <- !app_assoc. auto.
Qed.

(** Three 400 answers: [query] sends three requests one after the other,
    without a sleep, stores nothing, and returns the invalid-format
    message. *)
Theorem query_bad_request (prompt : str) (w : world) :
  cache_hit (TokenManager.truncate_text prompt MAX_INPUT_LENGTH) w = false ->
  (forall i : nat, (i < 3)%nat ->
     exists latency body,
       endpoint w (requests w + i) = (latency, Response 400 body)) ->
  (query prompt w).1 = MSG_BAD_REQUEST
  /\ events (query prompt w).2
     = events w
       ++ [CacheLookup (TokenManager.truncate_text prompt MAX_INPUT_LENGTH);
           Post (TokenManager.truncate_text prompt MAX_INPUT_LENGTH);
           Post (TokenManager.truncate_text prompt MAX_INPUT_LENGTH);
           Post (TokenManager.truncate_text prompt MAX_INPUT_LENGTH)]
  /\ cache (query prompt w).2 = cache w.
Proof.
  intros Hmiss H400. rewrite (query_miss prompt w Hmiss).
  set (p := TokenManager.truncate_text prompt MAX_INPUT_LENGTH).
  destruct (H400 0%nat) as (l0 & b0 & H0); [lia|].
  destruct (H400 1%nat) as (l1 & b1 & H1); [lia|].
  destruct (H400 2%nat) as (l2 & b2 & H2); [lia|].
  rewrite Nat.add_0_r in H0. rewrite Nat.add_1_r in H1.
  replace (requests w + 2)%nat with (S (S (requests w))) in H2 by lia.
  change (Py.range 1 (MAX_RETRIES + 1)) with [1; 2; 3].
  rewrite retry_loop_cons, (attempt_once_400 p p 1 l0 b0)
    by (exact H0 || reflexivity).
  rewrite retry_loop_cons, (attempt_once_400 p _ 2 l1 b1)
    by (exact H1 || reflexivity).
  rewrite retry_loop_cons, (attempt_once_400_last p _ 3 l2 b2)
    by (exact H2 || reflexivity).
  simpl. rewrite <- !app_assoc. auto.
Qed.

End ClassFacts.

(** ** HuggingFaceClient.query: effort and stores *)

Section EffortFacts.
Context {E : Env}.
Import HuggingFaceClient.

Lemma posts_app (evs evs' : list event) :
  posts (evs ++ evs') = (posts evs + posts evs')%nat.
Proof.
  induction evs as [|e evs IH]; [reflexivity|].
  destruct e; simpl; rewrite IH; reflexivity.
Qed.

Lemma sleep_total_app (evs evs' : list event) :
  sleep_total (evs ++ evs') = sleep_total evs + sleep_total evs'.
Proof.
  induction evs as [|e evs IH]; [reflexivity|].
  destruct e; simpl; rewrite IH; lia.
Qed.

Lemma query_hit_or_miss (prompt : str) (w : world) :
  (cache_hit (TokenManager.truncate_text prompt MAX_INPUT_LENGTH) w = true
   /\ exists cached,
        query prompt w
        = (cached,
           looked_up (TokenManager.truncate_text prompt MAX_INPUT_LENGTH) w))
  \/ (cache_hit (TokenManager.truncate_text prompt MAX_INPUT_LENGTH) w = false
      /\ query prompt w
         = retry_loop (TokenManager.truncate_text prompt MAX_INPUT_LENGTH)
             (Py.range 1 (MAX_RETRIES + 1))
             (TokenManager.truncate_text prompt MAX_INPUT_LENGTH)
             (looked_up
                (TokenManager.truncate_text prompt MAX_INPUT_LENGTH) w)).
Proof.
  destruct (cache_hit (TokenManager.truncate_text prompt MAX_INPUT_LENGTH) w)
    eqn:Hhit.
  - left. split; [reflexivity|]. unfold cache_hit in Hhit.
    destruct (APICache.get_cached_response _ w).1 as [[|c cs]|] eqn:Hget;
      try discriminate.
    exists (c :: cs). apply query_hit; [exact Hget|discriminate].
  - right. split; [reflexivity|]. apply query_miss, Hhit.
Qed.

(** What every run of [query] looks like, after its lookup. *)
Lemma query_run (prompt : str) (w : world) :
  exists pre : list event,
    forallb (fun e => negb (is_store e)) pre = true
    /\ (if cache_hit (TokenManager.truncate_text prompt MAX_INPUT_LENGTH) w
        then pre = []
        else (1 <= posts pre <= 3)%nat)
    /\ 0 <= sleep_total pre <= 14
    /\ requests (query prompt w).2 = (requests w + posts pre)%nat
    /\ endpoint (query prompt w).2 = endpoint w
    /\ user_inputs (query prompt w).2 = user_inputs w
    /\ bot_responses (query prompt w).2 = bot_responses w
    /\ ((events (query prompt w).2
         = events w
           ++ CacheLookup (TokenManager.truncate_text prompt MAX_INPUT_LENGTH)
              :: pre
         /\ cache (query prompt w).2 = cache w)
        \/ exists key,
             events (query prompt w).2
             = events w
               ++ CacheLookup
                    (TokenManager.truncate_text prompt MAX_INPUT_LENGTH)
                  :: pre ++ [CacheStore key (query prompt w).1]
             /\ cache (query prompt w).2
                = table_with key (query prompt w).1
                    (now (query prompt w).2) (cache w)
             /\ (2 <= length (query prompt w).1)%nat).
Proof.
  destruct (query_hit_or_miss prompt w) as [[-> [cached ->]]|[-> ->]].
  - exists []. simpl. repeat split; try lia. auto.
  - destruct (retry_loop_run (Py.range 1 (MAX_RETRIES + 1))
                (TokenManager.truncate_text prompt MAX_INPUT_LENGTH)
                (TokenManager.truncate_text prompt MAX_INPUT_LENGTH)
                (looked_up
                   (TokenManager.truncate_text prompt MAX_INPUT_LENGTH) w))
      as (pre & Hns & Hmost & Hleast & Hsleep & Hreq & Hep & Hui & Hbr & Hev).
    specialize (Hleast ltac:(discriminate)).
    change (length (Py.range 1 (MAX_RETRIES + 1))) with 3%nat in Hmost.
    change (backoff_total (Py.range 1 (MAX_RETRIES + 1))) with 14 in Hsleep.
    remember (retry_loop _ _ _ _) as run eqn:Hrun. clear Hrun.
    simpl in Hreq, Hep, Hui, Hbr, Hev.
    exists pre. repeat split; try assumption; try lia.
    destruct Hev as [[Hev Hc]|(key & Hev & Hc & Hlong)].
    + left. rewrite Hev, Hc, <- app_assoc. auto.
    + right. exists key. rewrite Hev, Hc, <- app_assoc. auto.
Qed.

(** Every run of [query] is bounded: it sends no request on a cache hit
    and between one and three on a miss, and it sleeps at most 14 seconds
    in all. *)
Theorem query_bounded_effort (prompt : str) (w : world) :
  exists new : list event,
    events (query prompt w).2 = events w ++ new
    /\ requests (query prompt w).2 = (requests w + posts new)%nat
    /\ (if cache_hit (TokenManager.truncate_text prompt MAX_INPUT_LENGTH) w
        then posts new = 0%nat
        else (1 <= posts new <= 3)%nat)
    /\ 0 <= sleep_total new <= 14.
Proof.
  destruct (query_run prompt w)
    as (pre & _ & Hposts & Hsleep & Hreq & _ & _ & _ & Hev).
  assert (Hhit : if cache_hit
                      (TokenManager.truncate_text prompt MAX_INPUT_LENGTH) w
                 then posts pre = 0%nat else (1 <= posts pre <= 3)%nat).
  { destruct (cache_hit _ w); [rewrite Hposts; reflexivity|exact Hposts]. }
  destruct Hev as [[Hev _]|(key & Hev & _ & _)]; rewrite Hev, Hreq;
    (eexists; split; [reflexivity|]);
    simpl; rewrite ?posts_app, ?sleep_total_app; simpl;
    rewrite ?Nat.add_0_r, ?Z.add_0_r; auto.
Qed.

(** [query] calls [cache_response] only as its last act, and only for the
    text it returns: a run either makes no such call and leaves the table
    as it was, or ends with one call for the returned text, which has at
    least 2 characters.  After that call the table is as it was when the
    store failed, and otherwise the table with the one row written, at the
    time the run ended. *)
Theorem query_stores_what_it_returns (prompt : str) (w : world) :
  exists pre : list event,
    forallb (fun e => negb (is_store e)) pre = true
    /\ ((events (query prompt w).2 = events w ++ pre
         /\ cache (query prompt w).2 = cache w)
        \/ exists key,
             events (query prompt w).2
             = events w ++ pre ++ [CacheStore key (query prompt w).1]
             /\ (2 <= length (query prompt w).1)%nat
             /\ (cache (query prompt w).2 = cache w
                 \/ exists rows : gmap str (str * Z),
                      Py.encodable key = true
                      /\ Py.encodable (query prompt w).1 = true
                      /\ cache w = Available rows
                      /\ cache (query prompt w).2
                         = Available
                             (<[compute_hash key
                                := ((query prompt w).1,
                                    now (query prompt w).2)]> rows))).
Proof.
  destruct (query_run prompt w)
    as (pre & Hns & _ & _ & _ & _ & _ & _ & Hev).
  exists (CacheLookup (TokenManager.truncate_text prompt MAX_INPUT_LENGTH)
          :: pre).
  split; [exact Hns|].
  destruct Hev as [[Hev Hc]|(key & Hev & Hc & Hlong)].
  - left. auto.
  - right. exists key. split; [exact Hev|]. split; [exact Hlong|].
    rewrite Hc. unfold table_with.
    destruct (cache w) as [rows|rows|]; auto.
    destruct (Py.encodable key) eqn:Hk; [|auto].
    destruct (Py.encodable (query prompt w).1) eqn:Hr; [|auto].
    right. exists rows. auto.
Qed.

(** With a database that raises, [query] still answers: every call goes to
    the endpoint, with one to three requests, and the database stays as it
    is. *)
Theorem query_without_database (prompt : str) (w : world) :
  cache w = Unavailable ->
  cache (query prompt w).2 = Unavailable
  /\ (requests w + 1 <= requests (query prompt w).2 <= requests w + 3)%nat.
Proof.
  intros Hc.
  destruct (query_run prompt w)
    as (pre & _ & Hposts & _ & Hreq & _ & _ & _ & Hev).
  assert (Hmiss : cache_hit
                    (TokenManager.truncate_text prompt MAX_INPUT_LENGTH) w
                  = false).
  { unfold cache_hit.
    rewrite (proj1 (cache_unavailable _ [] w Hc)). reflexivity. }
  rewrite Hmiss in Hposts. rewrite Hreq. split; [|lia].
  destruct Hev as [[_ ->]|(key & _ & -> & _)]; rewrite Hc; reflexivity.
Qed.

(** A fresh, non-empty cached text is returned at once: the lookup is all
    that happens.  (The truncated prompt must be a text that can be
    encoded: the digest of any other text raises and the lookup misses.) *)
Theorem query_cache_hit (prompt response : str) (timestamp : Z)
    (rows : gmap str (str * Z)) (w : world) :
  Py.encodable (TokenManager.truncate_text prompt MAX_INPUT_LENGTH) = true ->
  cache w = Available rows ->
  rows !! compute_hash (TokenManager.truncate_text prompt MAX_INPUT_LENGTH)
  = Some (response, timestamp) ->
  now w - timestamp < CACHE_EXPIRY ->
  response <> [] ->
  query prompt w
  = (response,
     looked_up (TokenManager.truncate_text prompt MAX_INPUT_LENGTH) w).
Proof.
  intros Henc Hc Hrow Hfresh Hne. apply query_hit; [|exact Hne].
  rewrite (get_cached_response_row _ response timestamp rows w Henc Hc Hrow).
  destruct (Z.ltb_spec (now w - timestamp) CACHE_EXPIRY); [reflexivity|lia].
Qed.

End EffortFacts.

(** ** HuggingFaceClient.query: answers *)

Section AnswerFacts.
Context {E : Env}.
Import HuggingFaceClient.

Lemma too_short_false (result : str) :
  too_short result = false <-> (2 <= length result)%nat.
Proof.
  unfold too_short. split.
  - intros [_ H]%orb_false_elim. apply Nat.ltb_ge, H.
  - intros H. apply orb_false_intro.
    + apply bool_decide_eq_false. intros ->. simpl in H. lia.
    + apply Nat.ltb_ge, H.
Qed.

(** An adequate answer to the first request is returned and, when the
    truncated prompt and the answer can be encoded and the table is
    available, stored under the truncated prompt with the time the answer
    came; a later [query] of the same prompt on that table, less than
    [CACHE_EXPIRY] seconds after that time, returns it after the lookup
    alone. *)
Theorem query_answer_cached (prompt : str) (w : world)
    (rows : gmap str (str * Z)) (latency status : Z) (data : json) :
  Py.encodable (TokenManager.truncate_text prompt MAX_INPUT_LENGTH) = true ->
  Py.encodable (_extract_response data) = true ->
  cache w = Available rows ->
  cache_hit (TokenManager.truncate_text prompt MAX_INPUT_LENGTH) w = false ->
  endpoint w (requests w) = (latency, Response status (Some data)) ->
  (400 <=? status) && (status <? 600) = false ->
  (2 <= length (_extract_response data))%nat ->
  (query prompt w).1 = _extract_response data
  /\ events (query prompt w).2
     = events w
       ++ [CacheLookup (TokenManager.truncate_text prompt MAX_INPUT_LENGTH);
           Post (TokenManager.truncate_text prompt MAX_INPUT_LENGTH);
           CacheStore (TokenManager.truncate_text prompt MAX_INPUT_LENGTH)
             (_extract_response data)]
  /\ cache (query prompt w).2
     = Available
         (<[compute_hash (TokenManager.truncate_text prompt MAX_INPUT_LENGTH)
            := (_extract_response data, now w + latency)]> rows)
  /\ forall w2 : world,
       cache w2 = cache (query prompt w).2 ->
       now w2 - (now w + latency) < CACHE_EXPIRY ->
       query prompt w2
       = (_extract_response data,
          looked_up (TokenManager.truncate_text prompt MAX_INPUT_LENGTH) w2).
Proof.
  intros Hp Hr Hc Hmiss Hreply Hstatus Hlong.
  rewrite (query_miss prompt w Hmiss).
  set (p := TokenManager.truncate_text prompt MAX_INPUT_LENGTH) in *.
  change (Py.range 1 (MAX_RETRIES + 1)) with [1; 2; 3].
  rewrite retry_loop_cons,
    (attempt_once_success p p 1 latency status data)
    by (assumption || (apply too_short_false; assumption)).
  rewrite cache_response_step. unfold stored.
  cbn [fst snd cache now events posted looked_up].
  rewrite Hc, (table_with_written p _ _ rows Hp Hr), <- !app_assoc.
  split; [reflexivity|]. split; [reflexivity|]. split; [reflexivity|].
  intros w2 Hc2 Hfresh. apply query_hit.
  - fold p.
    rewrite (get_cached_response_row p (_extract_response data)
               (now w + latency) _ w2 Hp Hc2) by apply lookup_insert_eq.
    destruct (Z.ltb_spec (now w2 - (now w + latency)) CACHE_EXPIRY);
      [reflexivity|lia].
  - intros Hnil. rewrite Hnil in Hlong. simpl in Hlong. lia.
Qed.

Lemma warning_prefix_long (rest : str) :
  (2 <= length (Py.py "⚠️ Erro da API: " ++ rest))%nat.
Proof. rewrite length_app. vm_compute (length (Py.py _)). lia. Qed.

(** The error text of a record with an error field and no generated
    text. *)
Lemma extract_error_field (fields : list (str * json)) (error : json) :
  dict_get GENERATED_TEXT fields = None ->
  dict_get ERROR fields = Some error ->
  _extract_response (JDict fields) = MSG_API_ERROR error.
Proof.
  intros Hg He. unfold _extract_response, extract_try. rewrite Hg, He.
  reflexivity.
Qed.

(** A body that carries an API error, or from which nothing could be
    extracted, under a status that is no error: the attempt counts as an
    answer.  [query] returns the error text or the marker after one
    request, without retry, and stores it in the cache. *)
Theorem query_error_body_stored (prompt : str) (w : world)
    (latency status : Z) (data : json) :
  cache_hit (TokenManager.truncate_text prompt MAX_INPUT_LENGTH) w = false ->
  endpoint w (requests w) = (latency, Response status (Some data)) ->
  (400 <=? status) && (status <? 600) = false ->
  _extract_response data = MSG_UNEXPECTED_FORMAT
  \/ (exists fields error,
        data = JDict fields
        /\ dict_get GENERATED_TEXT fields = None
        /\ dict_get ERROR fields = Some error) ->
  (query prompt w).1 = _extract_response data
  /\ events (query prompt w).2
     = events w
       ++ [CacheLookup (TokenManager.truncate_text prompt MAX_INPUT_LENGTH);
           Post (TokenManager.truncate_text prompt MAX_INPUT_LENGTH);
           CacheStore (TokenManager.truncate_text prompt MAX_INPUT_LENGTH)
             (_extract_response data)].
Proof.
  intros Hmiss Hreply Hstatus Hbody. rewrite (query_miss prompt w Hmiss).
  set (p := TokenManager.truncate_text prompt MAX_INPUT_LENGTH) in *.
  assert (Hlong : too_short (_extract_response data) = false).
  { apply too_short_false.
    destruct Hbody as [->|(fields & error & -> & Hg & He)].
    - vm_compute. lia.
    - rewrite (extract_error_field fields error Hg He).
      apply warning_prefix_long. }
  change (Py.range 1 (MAX_RETRIES + 1)) with [1; 2; 3].
  rewrite retry_loop_cons,
    (attempt_once_success p p 1 latency status data) by assumption.
  rewrite cache_response_step. simpl. rewrite <- !app_assoc.
  split; reflexivity.
Qed.

End AnswerFacts.

(** ** HuggingFaceClient._extract_response *)

Section ExtractMore.
Context {E : Env}.
Import HuggingFaceClient.

(** Of a sequence only the first element is read: what follows it never
    changes the result. *)
Theorem extract_reads_first_only (first : json) (rest : list json) :
  _extract_response (JList (first :: rest)) = _extract_response (JList [first]).
Proof.
  unfold _extract_response, extract_try. destruct first; reflexivity.
Qed.

Lemma lstrip_head (s : str) :
  match head (Py.lstrip s) with
  | Some c => Py.is_space c = false
  | None => True
  end.
Proof.
  induction s as [|c s IH]; [exact I|].
  simpl. destruct (Py.is_space c) eqn:Hc; [exact IH|]. simpl. exact Hc.
Qed.

Lemma lstrip_suffix (s : str) : Py.lstrip s `suffix_of` s.
Proof.
  induction s as [|c s IH]; [reflexivity|].
  simpl. destruct (Py.is_space c); [|reflexivity].
  apply suffix_cons_r, IH.
Qed.

Lemma rstrip_prefix (s : str) : Py.rstrip s `prefix_of` s.
Proof.
  unfold Py.rstrip. destruct (lstrip_suffix (rev s)) as [k Hk].
  exists (rev k). apply (f_equal (@rev N)) in Hk.
  rewrite rev_involutive, rev_app_distr in Hk. exact Hk.
Qed.

Lemma rstrip_last (s : str) :
  match last (Py.rstrip s) with
  | Some c => Py.is_space c = false
  | None => True
  end.
Proof.
  unfold Py.rstrip. pose proof (lstrip_head (rev s)) as H.
  destruct (Py.lstrip (rev s)) as [|c t]; [exact I|].
  simpl in *. rewrite last_snoc. exact H.
Qed.

(** [strip] leaves no whitespace at either end. *)
Lemma strip_trimmed (s : str) : trimmed (Py.strip s).
Proof.
  unfold trimmed, Py.strip. split; [|apply rstrip_last].
  pose proof (lstrip_head s) as Hhead.
  destruct (rstrip_prefix (Py.lstrip s)) as [k Hk].
  destruct (Py.rstrip (Py.lstrip s)) as [|c t]; [exact I|].
  rewrite Hk in Hhead. exact Hhead.
Qed.

(** A generated text that is a string wins over every other field of the
    record, the error field included, and is returned without whitespace
    at either end; the same for the first record of a sequence. *)
Theorem extract_generated_text_trimmed
    (fields : list (str * json)) (text : str) (rest : list json) :
  dict_get GENERATED_TEXT fields = Some (JStr text) ->
  _extract_response (JDict fields) = Py.strip text
  /\ _extract_response (JList (JDict fields :: rest)) = Py.strip text
  /\ trimmed (_extract_response (JDict fields)).
Proof.
  intros Hget. unfold _extract_response, extract_try. simpl. rewrite Hget.
  simpl. split; [reflexivity|]. split; [reflexivity|]. apply strip_trimmed.
Qed.

(** A payload that is neither a record nor a sequence starting with a
    record gives the marker: a bare string is not taken as the answer. *)
Theorem extract_scalar_marker (data : json) :
  top_level_fields data = [] ->
  _extract_response data = MSG_UNEXPECTED_FORMAT.
Proof.
  intros Hfields. unfold _extract_response.
  rewrite (extract_try_falls_through data); [reflexivity| |].
  - destruct data as [| | | | |[|[] rest]|fields]; try reflexivity;
      simpl in Hfields; subst; reflexivity.
  - rewrite Hfields. reflexivity.
Qed.

End ExtractMore.

(** ** ChatSession *)

Section SessionFacts.
Context {E : Env}.
Import ChatSession.

Lemma last_last_n {A} (n : nat) (l : list A) :
  last (Py.last_n (S n) l) = last l.
Proof.
  unfold Py.last_n. destruct l as [|x l] using rev_ind; [reflexivity|].
  rewrite length_app. simpl.
  replace (length l + 1 - S n)%nat with (length l - n)%nat by lia.
  rewrite drop_app_le by lia. rewrite !last_snoc. reflexivity.
Qed.

(** The prompt in terms of the last input and the last response. *)
Lemma user_query_last (truncated_inputs truncated_responses : list str)
    (user_input : str) :
  user_query truncated_inputs truncated_responses user_input
  = match last truncated_inputs, last truncated_responses with
    | Some last_input, Some last_response =>
        (if (200 <? length (last_input ++ Py.SPACE ++ last_response))%nat
         then Py.last_n 200 (last_input ++ Py.SPACE ++ last_response)
         else last_input ++ Py.SPACE ++ last_response)
        ++ Py.SPACE ++ user_input
    | _, _ => user_input
    end.
Proof.
  unfold user_query.
  destruct (3 <=? length truncated_inputs)%nat; [|reflexivity].
  rewrite !last_last_n. reflexivity.
Qed.

(** The prompt is made from the most recent input and the most recent
    response only: histories with the same last input and the same last
    response give the same prompt, whatever comes before. *)
Theorem user_query_last_pair_only
    (inputs responses inputs' responses' : list str) (user_input : str) :
  last inputs = last inputs' ->
  last responses = last responses' ->
  user_query inputs responses user_input
  = user_query inputs' responses' user_input.
Proof. intros Hi Hr. rewrite !user_query_last, Hi, Hr. reflexivity. Qed.

(** The user's text ends the prompt, after at most 201 characters of
    context; of the prompt [query] keeps the first [MAX_INPUT_LENGTH]
    characters, so that with [n] characters of context the input is cut to
    its first [MAX_INPUT_LENGTH - n]. *)
Theorem user_query_context_first
    (inputs responses : list str) (user_input : str) :
  exists context : str,
    (length context <= 201)%nat
    /\ user_query inputs responses user_input = context ++ user_input
    /\ TokenManager.truncate_text
         (user_query inputs responses user_input) MAX_INPUT_LENGTH
       = context ++ take (MAX_INPUT_LENGTH - length context) user_input.
Proof.
  assert (Hcut : forall context : str,
            (length context <= 201)%nat ->
            TokenManager.truncate_text (context ++ user_input) MAX_INPUT_LENGTH
            = context ++ take (MAX_INPUT_LENGTH - length context) user_input).
  { intros context Hlen. rewrite truncate_text_take, take_app.
    rewrite take_ge by (unfold MAX_INPUT_LENGTH; lia). reflexivity. }
  rewrite user_query_last.
  destruct (last inputs) as [last_input|];
    [destruct (last responses) as [last_response|]|].
  - set (context :=
           if (200 <? length (last_input ++ Py.SPACE ++ last_response))%nat
           then Py.last_n 200 (last_input ++ Py.SPACE ++ last_response)
           else last_input ++ Py.SPACE ++ last_response).
    assert (Hlen : (length (context ++ Py.SPACE) <= 201)%nat).
    { rewrite length_app. change (length Py.SPACE) with 1%nat.
      unfold context.
      destruct (Nat.ltb_spec 200
                  (length (last_input ++ Py.SPACE ++ last_response)));
        [unfold Py.last_n; rewrite length_drop|]; lia. }
    exists (context ++ Py.SPACE). split; [exact Hlen|].
    rewrite <- (Hcut _ Hlen), <- app_assoc. split; reflexivity.
  - exists []. split; [simpl; lia|]. split; [reflexivity|].
    apply (Hcut [] ltac:(simpl; lia)).
  - exists []. split; [simpl; lia|]. split; [reflexivity|].
    apply (Hcut [] ltac:(simpl; lia)).
Qed.

(** What a turn does to the two lists of the session. *)
Lemma add_message_appends_aux (user_input : str) (w : world) :
  Py.strip user_input <> [] ->
  user_inputs (add_message user_input w).2
  = user_inputs w ++ [take MAX_INPUT_LENGTH user_input]
  /\ bot_responses (add_message user_input w).2
     = bot_responses w ++ [(add_message user_input w).1].
Proof.
  intros Hstrip. unfold add_message.
  assert (Hvalid : bool_decide (user_input = [])
                   || (length (Py.strip user_input) =? 0)%nat = false).
  { apply orb_false_intro.
    - apply bool_decide_eq_false. intros ->. apply Hstrip. reflexivity.
    - apply Nat.eqb_neq. intros Hnil. apply Hstrip, nil_length_inv, Hnil. }
  rewrite Hvalid.
  assert (Hclip : (if (MAX_INPUT_LENGTH <? length user_input)%nat
                   then take MAX_INPUT_LENGTH user_input else user_input)
                  = take MAX_INPUT_LENGTH user_input).
  { destruct (Nat.ltb_spec MAX_INPUT_LENGTH (length user_input));
      [reflexivity|]. symmetry. apply take_ge. assumption. }
  rewrite Hclip.
  unfold bind, append_user_input, session_state, append_bot_response, ret.
  destruct (TokenManager.truncate_history _ _ _) as [inputs responses].
  match goal with
  | |- context [HuggingFaceClient.query ?q ?w1] =>
      destruct (query_run q w1) as (_ & _ & _ & _ & _ & _ & Hui & Hbr & _);
      destruct (HuggingFaceClient.query q w1) as [reply w2]
  end.
  simpl in *. rewrite Hui, Hbr. auto.
Qed.

(** An input that is not blank is recorded, cut to [MAX_INPUT_LENGTH]
    characters, and answered: [add_message] appends one input and one
    response, the response being the text it returns, so a history of
    pairs stays a history of pairs. *)
Theorem add_message_appends (user_input : str) (w : world) :
  Py.strip user_input <> [] ->
  user_inputs (add_message user_input w).2
  = user_inputs w ++ [take MAX_INPUT_LENGTH user_input]
  /\ bot_responses (add_message user_input w).2
     = bot_responses w ++ [(add_message user_input w).1].
Proof. apply add_message_appends_aux. Qed.

Lemma history_from_pairs (inputs : list str) :
  forall (before responses : list str),
    length inputs = length responses ->
    history_from (length before) inputs (before ++ responses)
    = flat_map (fun turn => [Message USER turn.1; Message ASSISTANT turn.2])
        (zip inputs responses).
Proof.
  induction inputs as [|user_msg inputs IH];
    intros before [|response responses] Hlen; try discriminate;
    [reflexivity|].
  simpl. rewrite list_lookup_middle by reflexivity. simpl. do 2 f_equal.
  specialize (IH (before ++ [response]) responses ltac:(simpl in Hlen; lia)).
  rewrite length_app, <- app_assoc in IH. simpl in IH.
  rewrite Nat.add_1_r in IH. exact IH.
Qed.

(** [get_history] on as many responses as inputs. *)
Lemma get_history_pairs_aux (w : world) :
  length (user_inputs w) = length (bot_responses w) ->
  get_history w
  = (flat_map (fun turn => [Message USER turn.1; Message ASSISTANT turn.2])
       (zip (user_inputs w) (bot_responses w)), w).
Proof.
  intros Hlen. unfold get_history.
  rewrite <- (history_from_pairs (user_inputs w) [] (bot_responses w) Hlen).
  reflexivity.
Qed.

(** On a history of pairs, [get_history] lists the turns in order, each
    as the user's entry followed by the assistant's, and changes
    nothing. *)
Theorem get_history_pairs (w : world) :
  length (user_inputs w) = length (bot_responses w) ->
  get_history w
  = (flat_map (fun turn => [Message USER turn.1; Message ASSISTANT turn.2])
       (zip (user_inputs w) (bot_responses w)), w).
Proof. apply get_history_pairs_aux. Qed.

Lemma history_from_contents (inputs : list str) :
  forall (i : nat) (responses : list str),
    map content
      (filter (fun m => role m = USER) (history_from i inputs responses))
    = inputs
    /\ map content
         (filter (fun m => role m = ASSISTANT)
            (history_from i inputs responses))
       = take (length inputs) (drop i responses).
Proof.
  induction inputs as [|user_msg inputs IH]; intros i responses.
  - split; reflexivity.
  - destruct (IH (S i) responses) as [IHu IHa]. simpl history_from.
    rewrite !filter_cons. simpl.
    destruct (decide (USER = USER)) as [_|Hne]; [|congruence].
    destruct (decide (USER = ASSISTANT)) as [Heq|_]; [discriminate Heq|].
    destruct (responses !! i) as [response|] eqn:Hi.
    + simpl. rewrite !filter_cons. simpl.
      destruct (decide (ASSISTANT = USER)) as [Heq|_]; [discriminate Heq|].
      destruct (decide (ASSISTANT = ASSISTANT)) as [_|Hne]; [|congruence].
      simpl. rewrite IHu, IHa, (drop_S _ _ _ Hi). auto.
    + simpl. rewrite IHu, IHa.
      apply lookup_ge_None in Hi.
      rewrite !drop_ge by lia. rewrite take_nil. auto.
Qed.

(** Whatever the two lists, [get_history] shows every user input, in
    order, and the responses that have an input at their index, in order;
    responses beyond the inputs are not shown. *)
Theorem get_history_contents (w : world) :
  map content (filter (fun m => role m = USER) (get_history w).1)
  = user_inputs w
  /\ map content (filter (fun m => role m = ASSISTANT) (get_history w).1)
     = take (length (user_inputs w)) (bot_responses w).
Proof. apply (history_from_contents (user_inputs w) 0 (bot_responses w)). Qed.

(** A turn adds two entries to the history shown: on a history of pairs,
    after [add_message] with an input that is not blank, [get_history]
    gives what it gave before, then the recorded input, then the reply. *)
Theorem add_message_then_history (user_input : str) (w : world) :
  length (user_inputs w) = length (bot_responses w) ->
  Py.strip user_input <> [] ->
  (get_history (add_message user_input w).2).1
  = (get_history w).1
    ++ [Message USER (take MAX_INPUT_LENGTH user_input);
        Message ASSISTANT (add_message user_input w).1].
Proof.
  intros Hlen Hstrip.
  pose proof (add_message_appends_aux user_input w Hstrip) as [Hui Hbr].
  rewrite (get_history_pairs_aux w Hlen).
  rewrite get_history_pairs_aux by (rewrite Hui, Hbr, !length_app; simpl; lia).
  simpl. rewrite Hui, Hbr.
  rewrite zip_with_app by exact Hlen. rewrite flat_map_app. reflexivity.
Qed.

End SessionFacts.

(** ** The further properties on concrete runs *)

Lemma query_permanent_failure_witness :
  @cache_hit toy_env
    (TokenManager.truncate_text (Py.py "hello") MAX_INPUT_LENGTH)
    (fresh 0 offline) = false
  /\ @permanent toy_env
       (endpoint (fresh 0 offline) (requests (fresh 0 offline))).2
     = Some HuggingFaceClient.MSG_CONNECTION
  /\ (@HuggingFaceClient.query toy_env (Py.py "hello") (fresh 0 offline)).1
     = HuggingFaceClient.MSG_CONNECTION.
Proof.
  assert (Hmiss : @cache_hit toy_env
            (TokenManager.truncate_text (Py.py "hello") MAX_INPUT_LENGTH)
            (fresh 0 offline) = false)
    by (vm_compute; reflexivity).
  assert (Hclass : @permanent toy_env
            (endpoint (fresh 0 offline) (requests (fresh 0 offline))).2
          = Some HuggingFaceClient.MSG_CONNECTION)
    by reflexivity.
  split; [exact Hmiss|]. split; [exact Hclass|].
  exact (proj1 (@query_permanent_failure toy_env (Py.py "hello")
                  HuggingFaceClient.MSG_CONNECTION (fresh 0 offline)
                  Hmiss Hclass)).
Defined.

Lemma query_transient_failures_witness :
  @cache_hit toy_env
    (TokenManager.truncate_text (Py.py "hello") MAX_INPUT_LENGTH)
    (fresh 0 (always Timeout)) = false
  /\ (forall i : nat, (i < 2)%nat ->
        @transient toy_env
          (endpoint (fresh 0 (always Timeout))
             (requests (fresh 0 (always Timeout)) + i)).2 <> None)
  /\ @transient toy_env
       (endpoint (fresh 0 (always Timeout))
          (requests (fresh 0 (always Timeout)) + 2)).2
     = Some HuggingFaceClient.MSG_TIMEOUT
  /\ (@HuggingFaceClient.query toy_env (Py.py "hello")
        (fresh 0 (always Timeout))).1
     = HuggingFaceClient.MSG_TIMEOUT.
Proof.
  assert (Hmiss : @cache_hit toy_env
            (TokenManager.truncate_text (Py.py "hello") MAX_INPUT_LENGTH)
            (fresh 0 (always Timeout)) = false)
    by (vm_compute; reflexivity).
  assert (Hfirst : forall i : nat, (i < 2)%nat ->
            @transient toy_env
              (endpoint (fresh 0 (always Timeout))
                 (requests (fresh 0 (always Timeout)) + i)).2 <> None)
    by (intros i _; discriminate).
  assert (Hlast : @transient toy_env
            (endpoint (fresh 0 (always Timeout))
               (requests (fresh 0 (always Timeout)) + 2)).2
          = Some HuggingFaceClient.MSG_TIMEOUT)
    by reflexivity.
  split; [exact Hmiss|]. split; [exact Hfirst|]. split; [exact Hlast|].
  exact (proj1 (@query_transient_failures toy_env (Py.py "hello")
                  HuggingFaceClient.MSG_TIMEOUT (fresh 0 (always Timeout))
                  Hmiss Hfirst Hlast)).
Defined.

Lemma query_bad_request_witness :
  @cache_hit toy_env
    (TokenManager.truncate_text (Py.py "hello") MAX_INPUT_LENGTH)
    (fresh 0 (always (Response 400 None))) = false
  /\ (forall i : nat, (i < 3)%nat ->
        exists latency body,
          endpoint (fresh 0 (always (Response 400 None)))
            (requests (fresh 0 (always (Response 400 None))) + i)
          = (latency, Response 400 body))
  /\ (@HuggingFaceClient.query toy_env (Py.py "hello")
        (fresh 0 (always (Response 400 None)))).1
     = HuggingFaceClient.MSG_BAD_REQUEST.
Proof.
  assert (Hmiss : @cache_hit toy_env
            (TokenManager.truncate_text (Py.py "hello") MAX_INPUT_LENGTH)
            (fresh 0 (always (Response 400 None))) = false)
    by (vm_compute; reflexivity).
  assert (H400 : forall i : nat, (i < 3)%nat ->
            exists latency body,
              endpoint (fresh 0 (always (Response 400 None)))
                (requests (fresh 0 (always (Response 400 None))) + i)
              = (latency, Response 400 body))
    by (intros i _; exists 1, None; reflexivity).
  split; [exact Hmiss|]. split; [exact H400|].
  exact (proj1 (@query_bad_request toy_env (Py.py "hello")
                  (fresh 0 (always (Response 400 None))) Hmiss H400)).
Defined.

Lemma query_without_database_witness :
  cache (World Unavailable 0 offline 0 [] [] []) = Unavailable
  /\ cache (@HuggingFaceClient.query toy_env (Py.py "hello")
              (World Unavailable 0 offline 0 [] [] [])).2
     = Unavailable.
Proof.
  split; [reflexivity|].
  exact (proj1 (@query_without_database toy_env (Py.py "hello")
                  (World Unavailable 0 offline 0 [] [] []) eq_refl)).
Defined.

Lemma query_cache_hit_witness :
  let rows : gmap str (str * Z) :=
    {[ @compute_hash toy_env (Py.py "hi") := (Py.py "hello", 1000) ]} in
  let w := World (Available rows) 1500 offline 0 [] [] [] in
  Py.encodable (TokenManager.truncate_text (Py.py "hi") MAX_INPUT_LENGTH)
  = true
  /\ cache w = Available rows
  /\ rows !! @compute_hash toy_env
               (TokenManager.truncate_text (Py.py "hi") MAX_INPUT_LENGTH)
     = Some (Py.py "hello", 1000)
  /\ now w - 1000 < CACHE_EXPIRY
  /\ Py.py "hello" <> []
  /\ @HuggingFaceClient.query toy_env (Py.py "hi") w
     = (Py.py "hello",
        looked_up (TokenManager.truncate_text (Py.py "hi") MAX_INPUT_LENGTH)
          w).
Proof.
  intros rows w.
  assert (Henc : Py.encodable
            (TokenManager.truncate_text (Py.py "hi") MAX_INPUT_LENGTH)
          = true) by (vm_compute; reflexivity).
  assert (Hc : cache w = Available rows) by reflexivity.
  assert (Hrow : rows !! @compute_hash toy_env
                   (TokenManager.truncate_text (Py.py "hi") MAX_INPUT_LENGTH)
                 = Some (Py.py "hello", 1000))
    by (vm_compute; reflexivity).
  assert (Hfresh : now w - 1000 < CACHE_EXPIRY) by reflexivity.
  assert (Hne : Py.py "hello" <> []) by (vm_compute; discriminate).
  split; [exact Henc|]. split; [exact Hc|]. split; [exact Hrow|].
  split; [exact Hfresh|]. split; [exact Hne|].
  exact (@query_cache_hit toy_env (Py.py "hi") (Py.py "hello") 1000 rows w
           Henc Hc Hrow Hfresh Hne).
Defined.

Lemma query_answer_cached_witness :
  let data := JDict [(HuggingFaceClient.GENERATED_TEXT,
                      JStr (Py.py "Hello there"))] in
  let w := fresh 0 (always (Response 200 (Some data))) in
  Py.encodable (TokenManager.truncate_text (Py.py "hi") MAX_INPUT_LENGTH)
  = true
  /\ Py.encodable (@HuggingFaceClient._extract_response toy_env data) = true
  /\ cache w = Available ∅
  /\ @cache_hit toy_env
       (TokenManager.truncate_text (Py.py "hi") MAX_INPUT_LENGTH) w = false
  /\ endpoint w (requests w) = (1, Response 200 (Some data))
  /\ (400 <=? 200) && (200 <? 600) = false
  /\ (2 <= length (@HuggingFaceClient._extract_response toy_env data))%nat
  /\ (@HuggingFaceClient.query toy_env (Py.py "hi") w).1
     = @HuggingFaceClient._extract_response toy_env data.
Proof.
  intros data w.
  assert (Hp : Py.encodable
            (TokenManager.truncate_text (Py.py "hi") MAX_INPUT_LENGTH)
          = true) by (vm_compute; reflexivity).
  assert (Hr : Py.encodable
            (@HuggingFaceClient._extract_response toy_env data) = true)
    by (vm_compute; reflexivity).
  assert (Hc : cache w = Available ∅) by reflexivity.
  assert (Hmiss : @cache_hit toy_env
            (TokenManager.truncate_text (Py.py "hi") MAX_INPUT_LENGTH) w
          = false) by (vm_compute; reflexivity).
  assert (Hreply : endpoint w (requests w) = (1, Response 200 (Some data)))
    by reflexivity.
  assert (Hstatus : (400 <=? 200) && (200 <? 600) = false) by reflexivity.
  assert (Hlong : (2 <= length
                     (@HuggingFaceClient._extract_response toy_env data))%nat)
    by (vm_compute; lia).
  split; [exact Hp|]. split; [exact Hr|].
  split; [exact Hc|]. split; [exact Hmiss|]. split; [exact Hreply|].
  split; [exact Hstatus|]. split; [exact Hlong|].
  exact (proj1 (@query_answer_cached toy_env (Py.py "hi") w ∅ 1 200 data
                  Hp Hr Hc Hmiss Hreply Hstatus Hlong)).
Defined.

Lemma query_error_body_stored_witness :
  let data := JDict [(HuggingFaceClient.ERROR,
                      JStr (Py.py "model loading"))] in
  let w := fresh 0 (always (Response 200 (Some data))) in
  @cache_hit toy_env
    (TokenManager.truncate_text (Py.py "hi") MAX_INPUT_LENGTH) w = false
  /\ endpoint w (requests w) = (1, Response 200 (Some data))
  /\ (400 <=? 200) && (200 <? 600) = false
  /\ (@HuggingFaceClient._extract_response toy_env data
      = HuggingFaceClient.MSG_UNEXPECTED_FORMAT
      \/ exists fields error,
           data = JDict fields
           /\ dict_get HuggingFaceClient.GENERATED_TEXT fields = None
           /\ dict_get HuggingFaceClient.ERROR fields = Some error)
  /\ (@HuggingFaceClient.query toy_env (Py.py "hi") w).1
     = Py.py "⚠️ Erro da API: model loading".
Proof.
  intros data w.
  assert (Hmiss : @cache_hit toy_env
            (TokenManager.truncate_text (Py.py "hi") MAX_INPUT_LENGTH) w
          = false) by (vm_compute; reflexivity).
  assert (Hreply : endpoint w (requests w) = (1, Response 200 (Some data)))
    by reflexivity.
  assert (Hstatus : (400 <=? 200) && (200 <? 600) = false) by reflexivity.
  assert (Hbody : @HuggingFaceClient._extract_response toy_env data
                  = HuggingFaceClient.MSG_UNEXPECTED_FORMAT
                  \/ exists fields error,
                       data = JDict fields
                       /\ dict_get HuggingFaceClient.GENERATED_TEXT fields
                          = None
                       /\ dict_get HuggingFaceClient.ERROR fields = Some error).
  { right. exists [(HuggingFaceClient.ERROR, JStr (Py.py "model loading"))],
      (JStr (Py.py "model loading")).
    split; [reflexivity|]. split; vm_compute; reflexivity. }
  split; [exact Hmiss|]. split; [exact Hreply|]. split; [exact Hstatus|].
  split; [exact Hbody|].
  exact (proj1 (@query_error_body_stored toy_env (Py.py "hi") w 1 200 data
                  Hmiss Hreply Hstatus Hbody)).
Defined.

Lemma extract_generated_text_trimmed_witness :
  let fields := [(HuggingFaceClient.ERROR, JStr (Py.py "busy"));
                 (HuggingFaceClient.GENERATED_TEXT, JStr (Py.py "  Hi  "))] in
  dict_get HuggingFaceClient.GENERATED_TEXT fields
  = Some (JStr (Py.py "  Hi  "))
  /\ @HuggingFaceClient._extract_response toy_env (JDict fields)
     = Py.strip (Py.py "  Hi  ")
  /\ Py.strip (Py.py "  Hi  ") = Py.py "Hi".
Proof.
  intros fields.
  assert (Hget : dict_get HuggingFaceClient.GENERATED_TEXT fields
                 = Some (JStr (Py.py "  Hi  ")))
    by (vm_compute; reflexivity).
  split; [exact Hget|]. split; [|vm_compute; reflexivity].
  exact (proj1 (@extract_generated_text_trimmed toy_env fields
                  (Py.py "  Hi  ") [] Hget)).
Defined.

Lemma extract_scalar_marker_witness :
  top_level_fields (JStr (Py.py "Hello there")) = []
  /\ @HuggingFaceClient._extract_response toy_env (JStr (Py.py "Hello there"))
     = HuggingFaceClient.MSG_UNEXPECTED_FORMAT.
Proof.
  split; [reflexivity|].
  exact (@extract_scalar_marker toy_env (JStr (Py.py "Hello there")) eq_refl).
Defined.

Lemma user_query_last_pair_only_witness :
  last [Py.py "one"; Py.py "two"] = last [Py.py "two"]
  /\ last [Py.py "uno"; Py.py "dos"] = last [Py.py "dos"]
  /\ ChatSession.user_query [Py.py "one"; Py.py "two"]
       [Py.py "uno"; Py.py "dos"] (Py.py "three")
     = ChatSession.user_query [Py.py "two"] [Py.py "dos"] (Py.py "three").
Proof.
  split; [reflexivity|]. split; [reflexivity|].
  exact (user_query_last_pair_only [Py.py "one"; Py.py "two"]
           [Py.py "uno"; Py.py "dos"] [Py.py "two"] [Py.py "dos"]
           (Py.py "three") eq_refl eq_refl).
Defined.

Lemma add_message_appends_witness :
  Py.strip (Py.py " hello ") <> []
  /\ user_inputs (@ChatSession.add_message toy_env (Py.py " hello ")
                    (fresh 0 offline)).2
     = user_inputs (fresh 0 offline)
       ++ [take MAX_INPUT_LENGTH (Py.py " hello ")].
Proof.
  assert (Hstrip : Py.strip (Py.py " hello ") <> [])
    by (vm_compute; discriminate).
  split; [exact Hstrip|].
  exact (proj1 (@add_message_appends toy_env (Py.py " hello ")
                  (fresh 0 offline) Hstrip)).
Defined.

Lemma get_history_pairs_witness :
  let w := World (Available ∅) 0 offline 0 [] [Py.py "hi"] [Py.py "hello"] in
  length (user_inputs w) = length (bot_responses w)
  /\ (ChatSession.get_history w).1
     = [ChatSession.Message ChatSession.USER (Py.py "hi");
        ChatSession.Message ChatSession.ASSISTANT (Py.py "hello")].
Proof.
  intros w.
  assert (Hlen : length (user_inputs w) = length (bot_responses w))
    by reflexivity.
  split; [exact Hlen|].
  exact (f_equal fst (get_history_pairs w Hlen)).
Defined.

Lemma add_message_then_history_witness :
  length (user_inputs (fresh 0 offline))
  = length (bot_responses (fresh 0 offline))
  /\ Py.strip (Py.py "hello") <> []
  /\ (ChatSession.get_history
        (@ChatSession.add_message toy_env (Py.py "hello")
           (fresh 0 offline)).2).1
     = (ChatSession.get_history (fresh 0 offline)).1
       ++ [ChatSession.Message ChatSession.USER
             (take MAX_INPUT_LENGTH (Py.py "hello"));
           ChatSession.Message ChatSession.ASSISTANT
             (@ChatSession.add_message toy_env (Py.py "hello")
                (fresh 0 offline)).1].
Proof.
  assert (Hlen : length (user_inputs (fresh 0 offline))
                 = length (bot_responses (fresh 0 offline))) by reflexivity.
  assert (Hstrip : Py.strip (Py.py "hello") <> [])
    by (vm_compute; discriminate).
  split; [exact Hlen|]. split; [exact Hstrip|].
  exact (@add_message_then_history toy_env (Py.py "hello") (fresh 0 offline)
           Hlen Hstrip).
Defined.

(** ** HuggingFaceClient.query: recovery, and what is returned *)

Section RecoveryFacts.
Context {E : Env}.
Import HuggingFaceClient.

Lemma attempt_once_backs_off (inputs prompt : str) (attempt latency : Z)
    (r : reply) (w : world) :
  endpoint w (requests w) = (latency, r) ->
  backs_off r = true ->
  attempt < MAX_RETRIES ->
  attempt_once inputs attempt prompt w
  = (Continue prompt, slept (2 ^ attempt) (posted inputs latency w)).
Proof.
  intros Hreply Hclass Hleft. unfold backs_off in Hclass.
  apply orb_prop in Hclass as [Hclass|Hsoft];
    [apply orb_prop in Hclass as [H429|Htransient]|].
  - destruct r as [status body| | |]; try discriminate.
    apply Z.eqb_eq in H429. subst status.
    apply (attempt_once_429 inputs prompt attempt latency body w Hreply).
  - destruct (transient r) as [msg|] eqn:Hmsg; [|discriminate].
    rewrite (attempt_once_transient inputs prompt msg attempt latency r w
               Hreply Hmsg).
    destruct (Z.ltb_spec attempt MAX_RETRIES); [reflexivity|lia].
  - apply (attempt_once_soft_retry inputs prompt attempt latency r w
             Hreply Hsoft Hleft).
Qed.

(** A first reply of a class that backs off (429, 5xx, timeout, soft
    failure), then an adequate answer: [query] sleeps 2 seconds, asks
    again, returns the answer and stores it. *)
Theorem query_recovers_after_backoff (prompt : str) (w : world)
    (first : reply) (latency0 latency1 status : Z) (data : json) :
  cache_hit (TokenManager.truncate_text prompt MAX_INPUT_LENGTH) w = false ->
  endpoint w (requests w) = (latency0, first) ->
  backs_off first = true ->
  endpoint w (S (requests w)) = (latency1, Response status (Some data)) ->
  (400 <=? status) && (status <? 600) = false ->
  (2 <= length (_extract_response data))%nat ->
  (query prompt w).1 = _extract_response data
  /\ events (query prompt w).2
     = events w
       ++ [CacheLookup (TokenManager.truncate_text prompt MAX_INPUT_LENGTH);
           Post (TokenManager.truncate_text prompt MAX_INPUT_LENGTH);
           Sleep 2;
           Post (TokenManager.truncate_text prompt MAX_INPUT_LENGTH);
           CacheStore (TokenManager.truncate_text prompt MAX_INPUT_LENGTH)
             (_extract_response data)].
Proof.
  intros Hmiss H0 Hclass H1 Hstatus Hlong. rewrite (query_miss prompt w Hmiss).
  set (p := TokenManager.truncate_text prompt MAX_INPUT_LENGTH) in *.
  change (Py.range 1 (MAX_RETRIES + 1)) with [1; 2; 3].
  rewrite retry_loop_cons, (attempt_once_backs_off p p 1 latency0 first)
    by (assumption || reflexivity).
  rewrite retry_loop_cons,
    (attempt_once_success p p 2 latency1 status data)
    by (assumption || (apply too_short_false; assumption)).
  rewrite cache_response_step. simpl. rewrite <- !app_assoc.
  split; reflexivity.
Qed.

(** Whatever one turn of the loop returns is not the empty text. *)
Lemma attempt_once_returns_text (inputs prompt : str) (attempt : Z)
    (w : world) :
  match (attempt_once inputs attempt prompt w).1 with
  | Return result => result <> []
  | Continue _ => True
  end.
Proof.
  unfold attempt_once, backoff_or, bind. rewrite requests_post_step.
  destruct (endpoint w (requests w)) as [latency r]. simpl.
  destruct r as [status body| | |];
    repeat match goal with
      | |- context [APICache.cache_response ?q ?r ?w] =>
          rewrite (cache_response_run q r w)
      | |- context [if ?b then _ else _] => destruct b eqn:?
      | |- context [match ?b with Some _ => _ | None => _ end] => destruct b
      end;
    simpl; try exact I;
    first [ match goal with
            | H : bool_decide (?x = []) || _ = false |- ?x <> [] =>
                apply orb_false_elim in H as [H _];
                apply bool_decide_eq_false in H; exact H
            end
          | intros Hnil; apply (f_equal (take 1)) in Hnil;
            vm_compute in Hnil; discriminate Hnil ].
Qed.

Lemma retry_loop_returns_text (attempts : list Z) :
  forall (inputs prompt : str) (w : world),
    (retry_loop inputs attempts prompt w).1 <> [].
Proof.
  induction attempts as [|attempt attempts IH]; intros inputs prompt w.
  - simpl. intros Hnil. apply (f_equal length) in Hnil.
    vm_compute in Hnil. discriminate Hnil.
  - rewrite retry_loop_cons.
    pose proof (attempt_once_returns_text inputs prompt attempt w) as Hone.
    destruct (attempt_once inputs attempt prompt w) as [[prompt'|result] w'].
    + apply IH.
    + exact Hone.
Qed.

Lemma query_returns_text (prompt : str) (w : world) :
  (query prompt w).1 <> [].
Proof.
  destruct (cache_hit (TokenManager.truncate_text prompt MAX_INPUT_LENGTH) w)
    eqn:Hhit.
  - unfold cache_hit in Hhit.
    destruct (APICache.get_cached_response _ w).1 as [[|c cs]|] eqn:Hget;
      try discriminate.
    rewrite (query_hit prompt (c :: cs) w Hget) by discriminate.
    discriminate.
  - rewrite (query_miss prompt w Hhit). apply retry_loop_returns_text.
Qed.

(** Every call gives something to display: neither [query] nor
    [add_message] ever returns the empty text. *)
Theorem reply_never_empty (text : str) (w : world) :
  (query text w).1 <> []
  /\ (ChatSession.add_message text w).1 <> [].
Proof.
  split; [apply query_returns_text|].
  unfold ChatSession.add_message.
  destruct (bool_decide (text = []) || (length (Py.strip text) =? 0)%nat).
  - simpl. intros Hnil. apply (f_equal length) in Hnil.
    vm_compute in Hnil. discriminate Hnil.
  - unfold bind, ChatSession.append_user_input, ChatSession.session_state,
      ChatSession.append_bot_response, ret.
    destruct (TokenManager.truncate_history _ _ _) as [inputs responses].
    match goal with
    | |- context [query ?q ?w1] =>
        pose proof (query_returns_text q w1) as Htext;
        destruct (query q w1) as [reply w2]
    end.
    exact Htext.
Qed.

End RecoveryFacts.

Lemma query_recovers_after_backoff_witness :
  let data := JDict [(HuggingFaceClient.GENERATED_TEXT,
                      JStr (Py.py "Hello there"))] in
  let w := fresh 0 (fun n => match n with
                             | O => (1, Response 503 None)
                             | S _ => (1, Response 200 (Some data))
                             end) in
  @cache_hit toy_env
    (TokenManager.truncate_text (Py.py "hi") MAX_INPUT_LENGTH) w = false
  /\ endpoint w (requests w) = (1, Response 503 None)
  /\ @backs_off toy_env (Response 503 None) = true
  /\ endpoint w (S (requests w)) = (1, Response 200 (Some data))
  /\ (400 <=? 200) && (200 <? 600) = false
  /\ (2 <= length (@HuggingFaceClient._extract_response toy_env data))%nat
  /\ (@HuggingFaceClient.query toy_env (Py.py "hi") w).1
     = @HuggingFaceClient._extract_response toy_env data.
Proof.
  intros data w.
  assert (Hmiss : @cache_hit toy_env
            (TokenManager.truncate_text (Py.py "hi") MAX_INPUT_LENGTH) w
          = false) by (vm_compute; reflexivity).
  assert (H0 : endpoint w (requests w) = (1, Response 503 None))
    by reflexivity.
  assert (Hclass : @backs_off toy_env (Response 503 None) = true)
    by reflexivity.
  assert (H1 : endpoint w (S (requests w)) = (1, Response 200 (Some data)))
    by reflexivity.
  assert (Hstatus : (400 <=? 200) && (200 <? 600) = false) by reflexivity.
  assert (Hlong : (2 <= length
                     (@HuggingFaceClient._extract_response toy_env data))%nat)
    by (vm_compute; lia).
  split; [exact Hmiss|]. split; [exact H0|]. split; [exact Hclass|].
  split; [exact H1|]. split; [exact Hstatus|]. split; [exact Hlong|].
  exact (proj1 (@query_recovers_after_backoff toy_env (Py.py "hi") w
                  (Response 503 None) 1 1 200 data
                  Hmiss H0 Hclass H1 Hstatus Hlong)).
Defined.
